(** * libkineto initialisation (src/libkineto/src/init.cpp)

    A shallow embedding of the CUPTI callback handlers [initProfilers] and
    [stopProfiler], of [libkineto_init] and of [InitializeInjection],
    together with the properties of the activation state machine.

    Everything the file calls but does not define (the CUPTI callback
    gateway, the libkineto API singleton, the configuration loader, the
    event profiler controller, the process environment) is an external
    collaborator: an operation on an abstract external state [X].  Every
    statement the C++ executes that leaves the file (a collaborator call, a
    log line, a mutex operation) is also recorded, in program order, in the
    trace that a computation returns.

    The handlers are modelled twice: as computations that run from entry to
    return, and as threads that execute one statement at a time and
    interleave, [initMutex] permitting. *)

From Stdlib Require Import List Bool String ZArith Lia Arith Permutation.
Import ListNotations.

Local Open Scope string_scope.
Local Open Scope list_scope.

(** ** Data of the callback protocol *)

(** [CUcontext] is an opaque pointer: its address. *)
Definition CUcontext := Z.

(** [ConfigLoader&]: the address of the loader a reference denotes. *)
Definition ConfigLoaderRef := Z.

(** [CUptiResult], an enum passed around as its integer value. *)
Definition CUptiResult := Z.

(** The only callback domain the file names. *)
Inductive CUpti_CallbackDomain : Type :=
| CUPTI_CB_DOMAIN_RESOURCE.

(** [CUpti_CallbackId] is an integer; both handlers ignore it. *)
Definition CUpti_CallbackId := Z.

(** The two [CuptiCallbackApi] event kinds the file registers. *)
Inductive CuptiCallBackID : Type :=
| RESOURCE_CONTEXT_CREATED
| RESOURCE_CONTEXT_DESTROYED.

(** The function pointers handed to [registerCallback]. *)
Inductive CallbackFn : Type :=
| Fn_initProfilers
| Fn_stopProfiler.

(** [CUpti_ResourceData]: the handlers read the [context] field only. *)
Record CUpti_ResourceData : Type := mkResourceData {
  context : CUcontext
}.

(** [ActivityProfilerProxy(cpuOnly, config_loader)]. *)
Record ActivityProfilerProxy : Type := mkActivityProfilerProxy {
  proxy_cpuOnly : bool;
  proxy_configLoader : ConfigLoaderRef
}.

Inductive Severity : Type :=
| VERBOSE (level : Z)
| INFO
| WARNING
| ERROR.

(** ** The trace: statements that leave the file, in program order *)

Inductive Call : Type :=
| LOG (sev : Severity) (msg : string)
| SET_LOG_SEVERITY_LEVEL (sev : Severity)
| Lock_initMutex
| Unlock_initMutex
| Call_getenv (name : string) (result : option string)
| Call_initProfilerIfRegistered
| Call_configLoader (result : ConfigLoaderRef)
| Call_initBaseConfig (loader : ConfigLoaderRef)
| Call_EventProfilerController_start (ctx : CUcontext) (loader : ConfigLoaderRef)
| Call_EventProfilerController_stop (ctx : CUcontext)
| Call_singleton
| Call_initSuccess (result : bool)
| Call_registerCallback (domain : CUpti_CallbackDomain) (cbid : CuptiCallBackID)
    (fn : CallbackFn) (result : bool)
| Call_enableCallback (domain : CUpti_CallbackDomain) (cbid : CuptiCallBackID)
    (result : bool)
| Call_getCuptiStatus (result : CUptiResult)
| CUPTI_CALL (status : CUptiResult)
| Call_registerProfiler (profiler : ActivityProfilerProxy).

Definition Trace := list Call.

(** Classifiers used to state what a trace does and does not contain. *)

Definition is_activation (c : Call) : bool :=
  match c with Call_initProfilerIfRegistered => true | _ => false end.

Definition is_lock (c : Call) : bool :=
  match c with Lock_initMutex => true | _ => false end.

Definition is_unlock (c : Call) : bool :=
  match c with Unlock_initMutex => true | _ => false end.

Definition is_start (c : Call) : bool :=
  match c with Call_EventProfilerController_start _ _ => true | _ => false end.

Definition is_probe (c : Call) : bool :=
  match c with
  | Call_singleton | Call_initSuccess _ | Call_registerCallback _ _ _ _
  | Call_enableCallback _ _ _ | Call_getCuptiStatus _ => true
  | _ => false
  end.

Definition is_register_or_enable (c : Call) : bool :=
  match c with
  | Call_registerCallback _ _ _ _ | Call_enableCallback _ _ _ => true
  | _ => false
  end.

Definition is_enable (c : Call) : bool :=
  match c with Call_enableCallback _ _ _ => true | _ => false end.

(** What [logOnError] switches on: the [CUPTI_CALL(cbapi.getCuptiStatus())]
    statement and the two log lines after it. *)
Definition is_diagnostic (c : Call) : bool :=
  match c with
  | Call_getCuptiStatus _ | CUPTI_CALL _ => true
  | LOG WARNING _ | LOG INFO _ => true
  | _ => false
  end.

Definition is_warning (c : Call) : bool :=
  match c with LOG WARNING _ => true | _ => false end.

Definition is_registerProfiler (c : Call) : bool :=
  match c with Call_registerProfiler _ => true | _ => false end.

Definition is_stop (c : Call) : bool :=
  match c with Call_EventProfilerController_stop _ => true | _ => false end.

(** Calls into a collaborator, as opposed to logging and locking. *)
Definition is_collaborator_call (c : Call) : bool :=
  match c with
  | LOG _ _ | SET_LOG_SEVERITY_LEVEL _ | Lock_initMutex | Unlock_initMutex
  | CUPTI_CALL _ => false
  | _ => true
  end.

(** The profilers handed to [registerProfiler], in call order. *)
Fixpoint registered_profilers (t : Trace) : list ActivityProfilerProxy :=
  match t with
  | [] => []
  | Call_registerProfiler p :: rest => p :: registered_profilers rest
  | _ :: rest => registered_profilers rest
  end.

Definition count (p : Call -> bool) (t : Trace) : nat :=
  List.length (filter p t).

Definition absent (p : Call -> bool) (t : Trace) : Prop :=
  filter p t = [].

(** ** External collaborators *)

(** The operations of the code that init.cpp calls and does not define.
    Each acts on the external state; those whose result the file reads
    return it. *)
Class Collaborators (X : Type) : Type := {
  (* CuptiCallbackApi *)
  singleton : X -> X;
  initSuccess : X -> bool * X;
  registerCallback :
    CUpti_CallbackDomain -> CuptiCallBackID -> CallbackFn -> X -> bool * X;
  enableCallback : CUpti_CallbackDomain -> CuptiCallBackID -> X -> bool * X;
  getCuptiStatus : X -> CUptiResult * X;
  (* libkineto::api() *)
  initProfilerIfRegistered : X -> X;
  configLoader : X -> ConfigLoaderRef * X;
  registerProfiler : ActivityProfilerProxy -> X -> X;
  (* ConfigLoader *)
  initBaseConfig : ConfigLoaderRef -> X -> X;
  (* EventProfilerController *)
  EventProfilerController_start : CUcontext -> ConfigLoaderRef -> X -> X;
  EventProfilerController_stop : CUcontext -> X -> X;
  (* libc *)
  getenv : string -> X -> option string
}.

(** ** State and the computation monad *)

(** [initialized] is the file's [static bool]; [ext] is everything else in
    the process. *)
Record World (X : Type) : Type := mkWorld {
  initialized : bool;
  ext : X
}.

Arguments mkWorld {X} _ _.
Arguments initialized {X} _.
Arguments ext {X} _.

(** A computation maps a world to its result, the world after it and the
    trace of what it executed. *)
Definition M (X A : Type) : Type := World X -> A * World X * Trace.

Definition ret {X A : Type} (a : A) : M X A :=
  fun w => (a, w, []).

Definition result {X A : Type} (r : A * World X * Trace) : A := fst (fst r).
Definition after {X A : Type} (r : A * World X * Trace) : World X := snd (fst r).
Definition trace_of {X A : Type} (r : A * World X * Trace) : Trace := snd r.

Definition bind {X A B : Type} (m : M X A) (f : A -> M X B) : M X B :=
  fun w =>
    let '(a, w1, t1) := m w in
    let '(b, w2, t2) := f a w1 in
    (b, w2, t1 ++ t2).

Declare Scope kineto_scope.
Delimit Scope kineto_scope with kineto.

Notation "x <- m ;; k" := (bind m (fun x => k))
  (at level 61, m at next level, right associativity) : kineto_scope.
Notation "m ;; k" := (bind m (fun _ => k))
  (at level 61, right associativity) : kineto_scope.

Local Open Scope kineto_scope.

(** A statement with no effect on the modelled state. *)
Definition emit {X : Type} (c : Call) : M X unit :=
  fun w => (tt, w, [c]).

(** A collaborator call whose result is not read. *)
Definition call {X : Type} (f : X -> X) (c : Call) : M X unit :=
  fun w => (tt, mkWorld (initialized w) (f (ext w)), [c]).

(** A collaborator call whose result is read. *)
Definition ask {X R : Type} (f : X -> R * X) (c : R -> Call) : M X R :=
  fun w =>
    let '(r, x) := f (ext w) in
    (r, mkWorld (initialized w) x, [c r]).

Definition read_initialized {X : Type} : M X bool :=
  fun w => (initialized w, w, []).

Definition write_initialized {X : Type} (b : bool) : M X unit :=
  fun w => (tt, mkWorld b (ext w), []).

(** [std::lock_guard<std::mutex> lock(initMutex)] at the head of [body],
    the rest of the enclosing scope: the mutex is released when the scope
    is left. *)
Definition lock_guard_initMutex {X A : Type} (body : M X A) : M X A :=
  emit Lock_initMutex ;;
  r <- body ;;
  emit Unlock_initMutex ;;
  ret r.

(** [a && b] of C++: [b] is evaluated only when [a] is true. *)
Definition and_then {X : Type} (a : bool) (b : M X bool) : M X bool :=
  if a then b else ret false.

Section Init.

Context {X : Type} `{HX : Collaborators X}.

(** ** The handlers (compiled under HAS_CUPTI) *)

Definition initProfilers
    (domain : CUpti_CallbackDomain) (cbid : CUpti_CallbackId)
    (cbInfo : CUpti_ResourceData) : M X unit :=
  let ctx := context cbInfo in
  emit (LOG (VERBOSE 0) "CUDA Context created") ;;
  lock_guard_initMutex (
    i <- read_initialized ;;
    (if negb i then
       call initProfilerIfRegistered Call_initProfilerIfRegistered ;;
       write_initialized true ;;
       emit (LOG (VERBOSE 0) "libkineto profilers activated")
     else ret tt) ;;
    e <- ask (fun x => (getenv "KINETO_DISABLE_EVENT_PROFILER" x, x))
             (Call_getenv "KINETO_DISABLE_EVENT_PROFILER") ;;
    match e with
    | Some _ =>
        emit (LOG (VERBOSE 0) "Event profiler disabled via env var")
    | None =>
        config_loader <- ask configLoader Call_configLoader ;;
        call (initBaseConfig config_loader) (Call_initBaseConfig config_loader) ;;
        call (EventProfilerController_start ctx config_loader)
             (Call_EventProfilerController_start ctx config_loader)
    end).

Definition stopProfiler
    (domain : CUpti_CallbackDomain) (cbid : CUpti_CallbackId)
    (cbInfo : CUpti_ResourceData) : M X unit :=
  let ctx := context cbInfo in
  emit (LOG INFO "CUDA Context destroyed") ;;
  lock_guard_initMutex (
    call (EventProfilerController_stop ctx)
         (Call_EventProfilerController_stop ctx)).

(** What the CUPTI runtime runs for a registered function pointer. *)
Definition invoke (fn : CallbackFn) : CUpti_CallbackDomain ->
    CUpti_CallbackId -> CUpti_ResourceData -> M X unit :=
  match fn with
  | Fn_initProfilers => initProfilers
  | Fn_stopProfiler => stopProfiler
  end.

(** ** Library initialisation *)

(** Lines 100-115: the value of [status] when the [HAS_CUPTI] block reaches
    line 117. *)
Definition register_and_enable : M X bool :=
  let status := false in
  i <- ask initSuccess Call_initSuccess ;;
  if i then
    let domain := CUPTI_CB_DOMAIN_RESOURCE in
    status <- ask (registerCallback domain RESOURCE_CONTEXT_CREATED Fn_initProfilers)
                  (Call_registerCallback domain RESOURCE_CONTEXT_CREATED
                     Fn_initProfilers) ;;
    status <- and_then status
                (ask (registerCallback domain RESOURCE_CONTEXT_DESTROYED
                        Fn_stopProfiler)
                     (Call_registerCallback domain RESOURCE_CONTEXT_DESTROYED
                        Fn_stopProfiler)) ;;
    if status then
      status <- ask (enableCallback domain RESOURCE_CONTEXT_CREATED)
                    (Call_enableCallback domain RESOURCE_CONTEXT_CREATED) ;;
      and_then status
        (ask (enableCallback domain RESOURCE_CONTEXT_DESTROYED)
             (Call_enableCallback domain RESOURCE_CONTEXT_DESTROYED))
    else ret status
  else ret status.

(** Lines 120-126. *)
Definition log_cupti_failure : M X unit :=
  s <- ask getCuptiStatus Call_getCuptiStatus ;;
  emit (CUPTI_CALL s) ;;
  emit (LOG WARNING
          "CUPTI initialization failed - CUDA profiler activities will be missing") ;;
  emit (LOG INFO
          "If you see CUPTI_ERROR_INSUFFICIENT_PRIVILEGES, refer to https://developer.nvidia.com/nvidia-development-tools-solutions-err-nvgpuctrperm-cupti").

(** Lines 95-128: the block under [#ifdef HAS_CUPTI]; it returns the values
    of [success] and [cpuOnly] at line 129. *)
Definition cupti_block (cpuOnly logOnError : bool) : M X (bool * bool) :=
  let success := true in
  if negb cpuOnly then
    call singleton Call_singleton ;;
    status <- register_and_enable ;;
    i <- ask initSuccess Call_initSuccess ;;
    if negb i || negb status then
      (if logOnError then log_cupti_failure else ret tt) ;;
      ret (false, true)
    else ret (success, cpuOnly)
  else ret (success, cpuOnly).

(** [HAS_CUPTI] is the preprocessor symbol: [true] when it is defined. *)
Definition libkineto_init (HAS_CUPTI : bool) (cpuOnly logOnError : bool)
    : M X bool :=
  sc <- (if HAS_CUPTI then cupti_block cpuOnly logOnError
         else ret (true, cpuOnly)) ;;
  let '(success, cpuOnly) := sc in
  config_loader <- ask configLoader Call_configLoader ;;
  call (registerProfiler (mkActivityProfilerProxy cpuOnly config_loader))
       (Call_registerProfiler (mkActivityProfilerProxy cpuOnly config_loader)) ;;
  ret success.

Definition InitializeInjection (HAS_CUPTI : bool) : M X Z :=
  emit (LOG INFO "Injection mode: Initializing libkineto") ;;
  libkineto_init HAS_CUPTI false true ;;
  ret 1%Z.

Definition suppressLibkinetoLogMessages : M X unit :=
  emit (SET_LOG_SEVERITY_LEVEL ERROR).

End Init.

(** ** The host runtime *)

(** What the process does around this file: the CUPTI runtime fires the two
    resource callbacks, and anything else that runs in between may change
    the external state (the environment included). *)
Inductive HostEvent (X : Type) : Type :=
| ContextCreated (domain : CUpti_CallbackDomain) (cbid : CUpti_CallbackId)
    (cbInfo : CUpti_ResourceData)
| ContextDestroyed (domain : CUpti_CallbackDomain) (cbid : CUpti_CallbackId)
    (cbInfo : CUpti_ResourceData)
| Elsewhere (f : X -> X).

Arguments ContextCreated {X} _ _ _.
Arguments ContextDestroyed {X} _ _ _.
Arguments Elsewhere {X} _.

Section Host.

Context {X : Type} `{HX : Collaborators X}.

Definition host_step (ev : HostEvent X) : M X unit :=
  match ev with
  | ContextCreated d c i => invoke Fn_initProfilers d c i
  | ContextDestroyed d c i => invoke Fn_stopProfiler d c i
  | Elsewhere f => fun w => (tt, mkWorld (initialized w) (f (ext w)), [])
  end.

Fixpoint run (evs : list (HostEvent X)) : M X unit :=
  match evs with
  | [] => ret tt
  | ev :: rest => host_step ev ;; run rest
  end.

Definition is_created (ev : HostEvent X) : bool :=
  match ev with ContextCreated _ _ _ => true | _ => false end.

Definition created_count (evs : list (HostEvent X)) : nat :=
  List.length (filter is_created evs).

End Host.

(** ** Handlers on several threads *)

(** The CUPTI runtime may run the handlers on several threads at once.  A
    thread executes its handler one statement at a time; statements of
    different threads interleave freely, except that [lock_guard] waits
    while [initMutex] is held. *)

(** The statement a thread executes next, by source line. *)
Inductive Pc : Type :=
| Created_log                                     (* line 55 *)
| Created_lock                                    (* line 56 *)
| Created_test                                    (* line 58 *)
| Created_activate                                (* line 59 *)
| Created_set                                     (* line 60 *)
| Created_log_activated                           (* line 61 *)
| Created_getenv                                  (* line 63 *)
| Created_log_disabled                            (* line 64 *)
| Created_configLoader                            (* line 66 *)
| Created_initBaseConfig (loader : ConfigLoaderRef) (* line 67 *)
| Created_start (loader : ConfigLoaderRef)        (* line 68 *)
| Created_unlock                                  (* line 70 *)
| Created_returned
| Destroyed_log                                   (* line 79 *)
| Destroyed_lock                                  (* line 80 *)
| Destroyed_stop                                  (* line 81 *)
| Destroyed_unlock                                (* line 82 *)
| Destroyed_returned.

Record Thread : Type := mkThread {
  pc : Pc;
  cbInfo_of : CUpti_ResourceData
}.

(** What the threads share: the world, [initMutex] (true when held) and
    the statements executed so far, by all threads. *)
Record Shared (X : Type) : Type := mkShared {
  world : World X;
  initMutex : bool;
  history : Trace
}.

Arguments mkShared {X} _ _ _.
Arguments world {X} _.
Arguments initMutex {X} _.
Arguments history {X} _.

(** A thread holds [initMutex] from after its lock statement until it has
    executed its unlock. *)
Definition holds_lock (p : Pc) : bool :=
  match p with
  | Created_log | Created_lock | Created_returned
  | Destroyed_log | Destroyed_lock | Destroyed_returned => false
  | _ => true
  end.

Definition returned (p : Pc) : bool :=
  match p with Created_returned | Destroyed_returned => true | _ => false end.

Definition is_created_thread (p : Pc) : bool :=
  match p with
  | Destroyed_log | Destroyed_lock | Destroyed_stop | Destroyed_unlock
  | Destroyed_returned => false
  | _ => true
  end.

(** An upper bound on the statements a thread has left. *)
Definition statements_left (p : Pc) : nat :=
  match p with
  | Created_log => 12
  | Created_lock => 11
  | Created_test => 10
  | Created_activate => 9
  | Created_set => 8
  | Created_log_activated => 7
  | Created_getenv => 6
  | Created_log_disabled => 2
  | Created_configLoader => 5
  | Created_initBaseConfig _ => 4
  | Created_start _ => 3
  | Created_unlock => 1
  | Created_returned => 0
  | Destroyed_log => 4
  | Destroyed_lock => 3
  | Destroyed_stop => 2
  | Destroyed_unlock => 1
  | Destroyed_returned => 0
  end.

Section Threads.

Context {X : Type} `{HX : Collaborators X}.

Definition outside (f : X -> X) (s : Shared X) (c : Call) : Shared X :=
  mkShared (mkWorld (initialized (world s)) (f (ext (world s))))
    (initMutex s) (history s ++ [c]).

Definition logged (s : Shared X) (c : Call) : Shared X :=
  mkShared (world s) (initMutex s) (history s ++ [c]).

(** One statement of a thread; [None] when the thread cannot move: it has
    returned, or it waits for [initMutex]. *)
Definition thread_step (t : Thread) (s : Shared X)
    : option (Thread * Shared X) :=
  let ctx := context (cbInfo_of t) in
  let goto p s' := Some (mkThread p (cbInfo_of t), s') in
  match pc t with
  | Created_log =>
      goto Created_lock (logged s (LOG (VERBOSE 0) "CUDA Context created"))
  | Created_lock =>
      if initMutex s then None
      else goto Created_test
             (mkShared (world s) true (history s ++ [Lock_initMutex]))
  | Created_test =>
      if negb (initialized (world s)) then goto Created_activate s
      else goto Created_getenv s
  | Created_activate =>
      goto Created_set
        (outside initProfilerIfRegistered s Call_initProfilerIfRegistered)
  | Created_set =>
      goto Created_log_activated
        (mkShared (mkWorld true (ext (world s))) (initMutex s) (history s))
  | Created_log_activated =>
      goto Created_getenv
        (logged s (LOG (VERBOSE 0) "libkineto profilers activated"))
  | Created_getenv =>
      let e := getenv "KINETO_DISABLE_EVENT_PROFILER" (ext (world s)) in
      goto (match e with
            | Some _ => Created_log_disabled
            | None => Created_configLoader
            end)
        (logged s (Call_getenv "KINETO_DISABLE_EVENT_PROFILER" e))
  | Created_log_disabled =>
      goto Created_unlock
        (logged s (LOG (VERBOSE 0) "Event profiler disabled via env var"))
  | Created_configLoader =>
      let '(loader, x) := configLoader (ext (world s)) in
      goto (Created_initBaseConfig loader)
        (outside (fun _ => x) s (Call_configLoader loader))
  | Created_initBaseConfig loader =>
      goto (Created_start loader)
        (outside (initBaseConfig loader) s (Call_initBaseConfig loader))
  | Created_start loader =>
      goto Created_unlock
        (outside (EventProfilerController_start ctx loader) s
           (Call_EventProfilerController_start ctx loader))
  | Created_unlock =>
      goto Created_returned
        (mkShared (world s) false (history s ++ [Unlock_initMutex]))
  | Created_returned => None
  | Destroyed_log =>
      goto Destroyed_lock (logged s (LOG INFO "CUDA Context destroyed"))
  | Destroyed_lock =>
      if initMutex s then None
      else goto Destroyed_stop
             (mkShared (world s) true (history s ++ [Lock_initMutex]))
  | Destroyed_stop =>
      goto Destroyed_unlock
        (outside (EventProfilerController_stop ctx) s
           (Call_EventProfilerController_stop ctx))
  | Destroyed_unlock =>
      goto Destroyed_returned
        (mkShared (world s) false (history s ++ [Unlock_initMutex]))
  | Destroyed_returned => None
  end.

(** A thread running alone, for at most [fuel] statements. *)
Fixpoint solo (fuel : nat) (t : Thread) (s : Shared X) : Thread * Shared X :=
  match fuel with
  | 0 => (t, s)
  | S fuel' =>
      match thread_step t s with
      | Some (t', s') => solo fuel' t' s'
      | None => (t, s)
      end
  end.

(** The threads, and one step of the whole: some thread executes one
    statement. *)
Definition Pool : Type := list Thread.

Inductive pool_step : Pool * Shared X -> Pool * Shared X -> Prop :=
| pool_step_thread : forall before t after_t s t' s',
    thread_step t s = Some (t', s') ->
    pool_step (before ++ t :: after_t, s) (before ++ t' :: after_t, s').

Inductive pool_steps : Pool * Shared X -> Pool * Shared X -> Prop :=
| pool_steps_refl : forall c, pool_steps c c
| pool_steps_step : forall c1 c2 c3,
    pool_step c1 c2 -> pool_steps c2 c3 -> pool_steps c1 c3.

(** A scheduler's choices carried out: at each turn the thread of that
    index executes one statement; a turn given to a thread that cannot move
    is lost. *)
Fixpoint schedule (turns : list nat) (c : Pool * Shared X)
    : Pool * Shared X :=
  match turns with
  | [] => c
  | i :: rest =>
      match nth_error (fst c) i with
      | Some t =>
          match thread_step t (snd c) with
          | Some (t', s') =>
              schedule rest
                (firstn i (fst c) ++ t' :: skipn (S i) (fst c), s')
          | None => schedule rest c
          end
      | None => schedule rest c
      end
  end.

(** The callbacks the runtime fires, each on a thread of its own. *)
Definition spawn (ev : HostEvent X) : list Thread :=
  match ev with
  | ContextCreated _ _ i => [mkThread Created_log i]
  | ContextDestroyed _ _ i => [mkThread Destroyed_log i]
  | Elsewhere _ => []
  end.

Definition spawn_all (evs : list (HostEvent X)) : Pool :=
  flat_map spawn evs.

(** The shared state at process attach, before any callback. *)
Definition at_attach (x : X) : Shared X :=
  mkShared (mkWorld false x) false [].

Definition holders (p : Pool) : nat :=
  List.length (filter (fun t => holds_lock (pc t)) p).

Definition all_returned (p : Pool) : bool :=
  forallb (fun t => returned (pc t)) p.

Definition created_threads (p : Pool) : nat :=
  List.length (filter (fun t => is_created_thread (pc t)) p).

Definition work_left (p : Pool) : nat :=
  list_sum (map (fun t => statements_left (pc t)) p).

(** Threads that have called [initProfilerIfRegistered] and not yet set
    the flag. *)
Definition at_set (p : Pc) : bool :=
  match p with Created_set => true | _ => false end.

Definition pending (p : Pool) : nat :=
  List.length (filter (fun t => at_set (pc t)) p).

(** What a program point tells about the flag: between the test and the
    assignment it was read as false; past the assignment, or past a test
    that read true, it is true. *)
Definition flag_ok (init : bool) (p : Pc) : bool :=
  match p with
  | Created_activate | Created_set => negb init
  | Created_log_activated | Created_getenv | Created_log_disabled
  | Created_configLoader | Created_initBaseConfig _ | Created_start _
  | Created_unlock | Created_returned => init
  | _ => true
  end.

(** The invariant of the interleaved handlers: the mutex is held exactly
    when one thread is inside a guarded scope; the activations so far are
    accounted for by the flag or by the thread about to set it; and every
    thread's program point agrees with the flag. *)
Definition consistent (c : Pool * Shared X) : Prop :=
  holders (fst c) = (if initMutex (snd c) then 1 else 0)
  /\ count is_activation (history (snd c)) =
     (if initialized (world (snd c)) then 1 else 0) + pending (fst c)
  /\ forallb (fun t => flag_ok (initialized (world (snd c))) (pc t)) (fst c)
     = true.

End Threads.

(** ** A concrete process, for running the model *)

Module Fake.

Record Process : Type := mkProcess {
  cupti_available : bool;
  register_result : CuptiCallBackID -> bool;
  enable_result : CuptiCallBackID -> bool;
  cupti_status : CUptiResult;
  disable_event_profiler : option string;
  loader : ConfigLoaderRef;
  registered_profiler : option ActivityProfilerProxy;
  activations : nat;
  collecting : list CUcontext
}.

Definition set_profiler (p : ActivityProfilerProxy) (x : Process) : Process :=
  mkProcess (cupti_available x) (register_result x) (enable_result x)
    (cupti_status x) (disable_event_profiler x) (loader x) (Some p)
    (activations x) (collecting x).

Definition activate (x : Process) : Process :=
  mkProcess (cupti_available x) (register_result x) (enable_result x)
    (cupti_status x) (disable_event_profiler x) (loader x)
    (registered_profiler x)
    (match registered_profiler x with
     | Some _ => S (activations x)
     | None => activations x
     end)
    (collecting x).

Definition set_collecting (l : list CUcontext) (x : Process) : Process :=
  mkProcess (cupti_available x) (register_result x) (enable_result x)
    (cupti_status x) (disable_event_profiler x) (loader x)
    (registered_profiler x) (activations x) l.

Definition set_env (v : option string) (x : Process) : Process :=
  mkProcess (cupti_available x) (register_result x) (enable_result x)
    (cupti_status x) v (loader x) (registered_profiler x) (activations x)
    (collecting x).

#[global] Instance process_collaborators : Collaborators Process := {
  singleton := fun x => x;
  initSuccess := fun x => (cupti_available x, x);
  registerCallback := fun _ cbid _ x => (register_result x cbid, x);
  enableCallback := fun _ cbid x => (enable_result x cbid, x);
  getCuptiStatus := fun x => (cupti_status x, x);
  initProfilerIfRegistered := activate;
  configLoader := fun x => (loader x, x);
  registerProfiler := set_profiler;
  initBaseConfig := fun _ x => x;
  EventProfilerController_start :=
    fun ctx _ x => set_collecting (ctx :: collecting x) x;
  EventProfilerController_stop :=
    fun ctx x => set_collecting (filter (fun c => negb (Z.eqb c ctx)) (collecting x)) x;
  getenv := fun name x =>
    if String.eqb name "KINETO_DISABLE_EVENT_PROFILER"
    then disable_event_profiler x else None
}.

Definition all (b : bool) : CuptiCallBackID -> bool := fun _ => b.

Definition only (k : CuptiCallBackID) : CuptiCallBackID -> bool :=
  fun c =>
    match k, c with
    | RESOURCE_CONTEXT_CREATED, RESOURCE_CONTEXT_CREATED => true
    | RESOURCE_CONTEXT_DESTROYED, RESOURCE_CONTEXT_DESTROYED => true
    | _, _ => false
    end.

(** A process at attach time: GPU backend present or not, with the given
    answers to registration and enablement. *)
Definition process (available : bool)
    (reg en : CuptiCallBackID -> bool) (env : option string) : Process :=
  mkProcess available reg en (if available then 0%Z else 15%Z) env 4096%Z
    None 0 [].

Definition fresh (x : Process) : World Process := mkWorld false x.

Definition ctxA : CUpti_ResourceData := mkResourceData 100%Z.
Definition ctxB : CUpti_ResourceData := mkResourceData 200%Z.

(** Processes with and without a reachable GPU backend. *)
Definition gpu : Process := process true (all true) (all true) None.
Definition no_gpu : Process := process false (all true) (all true) None.

(** Backends on which one step of the registration fails. *)
Definition created_unregistrable : Process :=
  process true (all false) (all true) None.
Definition destroyed_unregistrable : Process :=
  process true (only RESOURCE_CONTEXT_CREATED) (all true) None.
Definition created_not_enabled : Process :=
  process true (all true) (all false) None.
Definition destroyed_not_enabled : Process :=
  process true (all true) (only RESOURCE_CONTEXT_CREATED) None.

(** Contexts A and B created on two threads. *)
Definition two_created : list (HostEvent Process) :=
  [ContextCreated CUPTI_CB_DOMAIN_RESOURCE 1%Z ctxA;
   ContextCreated CUPTI_CB_DOMAIN_RESOURCE 1%Z ctxB].

(** B logs first, A takes the mutex; B asks for it twice in vain while A
    activates, and enters once A has left. *)
Definition b_waits_for_a : list nat :=
  [1; 0; 0; 1; 0; 0; 1; 0; 0; 0; 0; 0; 0; 0; 1; 1; 1; 1; 1; 1; 1].

(** Two contexts created, then destroyed in the same order. *)
Definition two_contexts : list (HostEvent Process) :=
  [ContextCreated CUPTI_CB_DOMAIN_RESOURCE 1%Z ctxA;
   ContextCreated CUPTI_CB_DOMAIN_RESOURCE 1%Z ctxB;
   ContextDestroyed CUPTI_CB_DOMAIN_RESOURCE 2%Z ctxA;
   ContextDestroyed CUPTI_CB_DOMAIN_RESOURCE 2%Z ctxB].

End Fake.

(** ** Vocabulary of the statements *)

Section Vocabulary.

Context {X : Type} `{HX : Collaborators X}.

(** The external state when [initProfilers] reaches its [getenv] call: the
    activation has run if the flag was still clear. *)
Definition ext_at_getenv (w : World X) : X :=
  if initialized w then ext w else initProfilerIfRegistered (ext w).

(** What the [if (!initialized)] block of [initProfilers] executes. *)
Definition activation_trace (w : World X) : Trace :=
  if initialized w then []
  else [Call_initProfilerIfRegistered;
        LOG (VERBOSE 0) "libkineto profilers activated"].

(** The external state when [libkineto_init] first probes the gateway. *)
Definition ext_at_probe (w : World X) : X := singleton (ext w).

(** Registration or enablement fails, from the external state [x] reached
    after a successful [initSuccess]: the four places where [status] can
    become false. *)
Inductive registration_fails (x : X) : Prop :=
| register_created_fails :
    fst (registerCallback CUPTI_CB_DOMAIN_RESOURCE RESOURCE_CONTEXT_CREATED
           Fn_initProfilers x) = false ->
    registration_fails x
| register_destroyed_fails : forall x1,
    registerCallback CUPTI_CB_DOMAIN_RESOURCE RESOURCE_CONTEXT_CREATED
      Fn_initProfilers x = (true, x1) ->
    fst (registerCallback CUPTI_CB_DOMAIN_RESOURCE RESOURCE_CONTEXT_DESTROYED
           Fn_stopProfiler x1) = false ->
    registration_fails x
| enable_created_fails : forall x1 x2,
    registerCallback CUPTI_CB_DOMAIN_RESOURCE RESOURCE_CONTEXT_CREATED
      Fn_initProfilers x = (true, x1) ->
    registerCallback CUPTI_CB_DOMAIN_RESOURCE RESOURCE_CONTEXT_DESTROYED
      Fn_stopProfiler x1 = (true, x2) ->
    fst (enableCallback CUPTI_CB_DOMAIN_RESOURCE RESOURCE_CONTEXT_CREATED x2)
      = false ->
    registration_fails x
| enable_destroyed_fails : forall x1 x2 x3,
    registerCallback CUPTI_CB_DOMAIN_RESOURCE RESOURCE_CONTEXT_CREATED
      Fn_initProfilers x = (true, x1) ->
    registerCallback CUPTI_CB_DOMAIN_RESOURCE RESOURCE_CONTEXT_DESTROYED
      Fn_stopProfiler x1 = (true, x2) ->
    enableCallback CUPTI_CB_DOMAIN_RESOURCE RESOURCE_CONTEXT_CREATED x2
      = (true, x3) ->
    fst (enableCallback CUPTI_CB_DOMAIN_RESOURCE RESOURCE_CONTEXT_DESTROYED x3)
      = false ->
    registration_fails x.

(** The tail every CPU-only registration ends with: the loader is fetched
    and a proxy built with [cpuOnly = true] is registered. *)
Definition cpu_only_registration (loader : ConfigLoaderRef) : Trace :=
  [Call_configLoader loader;
   Call_registerProfiler (mkActivityProfilerProxy true loader)].

(** The four statements under [if (logOnError)]. *)
Definition diagnostics (status : CUptiResult) : Trace :=
  [Call_getCuptiStatus status; CUPTI_CALL status;
   LOG WARNING
     "CUPTI initialization failed - CUDA profiler activities will be missing";
   LOG INFO
     "If you see CUPTI_ERROR_INSUFFICIENT_PRIVILEGES, refer to https://developer.nvidia.com/nvidia-development-tools-solutions-err-nvgpuctrperm-cupti"].

(** How a fallback to CPU-only mode ends: the diagnostics when asked for,
    then the CPU-only registration. *)
Definition fallback_tail (logOnError : bool) (status : CUptiResult)
    (loader : ConfigLoaderRef) : Trace :=
  (if logOnError then diagnostics status else [])
  ++ cpu_only_registration loader.

End Vocabulary.

(** ** Vocabulary of the further properties *)

Section InitVocabulary.

Context {X : Type} `{HX : Collaborators X}.

(** The gateway answers that establish the GPU path: from the state [x] of
    the first probe, both probes, both registrations and both enablements
    answer true, and leave the state [x']. *)
Inductive gateway_succeeds (x x' : X) : Prop :=
| gateway_all_true : forall x0 x1 x2 x3 x4,
    initSuccess x = (true, x0) ->
    registerCallback CUPTI_CB_DOMAIN_RESOURCE RESOURCE_CONTEXT_CREATED
      Fn_initProfilers x0 = (true, x1) ->
    registerCallback CUPTI_CB_DOMAIN_RESOURCE RESOURCE_CONTEXT_DESTROYED
      Fn_stopProfiler x1 = (true, x2) ->
    enableCallback CUPTI_CB_DOMAIN_RESOURCE RESOURCE_CONTEXT_CREATED x2
      = (true, x3) ->
    enableCallback CUPTI_CB_DOMAIN_RESOURCE RESOURCE_CONTEXT_DESTROYED x3
      = (true, x4) ->
    initSuccess x4 = (true, x') ->
    gateway_succeeds x x'.

(** The four gateway calls of lines 104-113, each awaiting its answer. *)
Definition registration_plan : list (bool -> Call) :=
  [Call_registerCallback CUPTI_CB_DOMAIN_RESOURCE RESOURCE_CONTEXT_CREATED
     Fn_initProfilers;
   Call_registerCallback CUPTI_CB_DOMAIN_RESOURCE RESOURCE_CONTEXT_DESTROYED
     Fn_stopProfiler;
   Call_enableCallback CUPTI_CB_DOMAIN_RESOURCE RESOURCE_CONTEXT_CREATED;
   Call_enableCallback CUPTI_CB_DOMAIN_RESOURCE RESOURCE_CONTEXT_DESTROYED].

(** The calls of a plan that received the given answers, in order. *)
Fixpoint attempts (plan : list (bool -> Call)) (answers : list bool) : Trace :=
  match plan, answers with
  | f :: plan', b :: answers' => f b :: attempts plan' answers'
  | _, _ => []
  end.

(** Every answer but the last is true. *)
Fixpoint stops_at_first_failure (answers : list bool) : bool :=
  match answers with
  | [] => true
  | [_] => true
  | b :: rest => b && stops_at_first_failure rest
  end.

(** The trace of the established GPU path. *)
Definition gpu_path_trace (loader : ConfigLoaderRef) : Trace :=
  [Call_singleton; Call_initSuccess true]
  ++ attempts registration_plan [true; true; true; true]
  ++ [Call_initSuccess true;
      Call_configLoader loader;
      Call_registerProfiler (mkActivityProfilerProxy false loader)].

(** The statements [libkineto_init] can execute: gateway calls, the
    diagnostics, the fetch of the loader and the registration. *)
Definition is_init_statement (c : Call) : bool :=
  match c with
  | Call_singleton | Call_initSuccess _ | Call_registerCallback _ _ _ _
  | Call_enableCallback _ _ _ | Call_getCuptiStatus _ | CUPTI_CALL _
  | LOG WARNING _ | LOG INFO _
  | Call_configLoader _ | Call_registerProfiler _ => true
  | _ => false
  end.

(** [libkineto_init] called once per pair of arguments, in order; the
    results are collected. *)
Fixpoint init_each (HAS_CUPTI : bool) (args : list (bool * bool))
    : M X (list bool) :=
  match args with
  | [] => ret []
  | (cpuOnly, logOnError) :: rest =>
      r <- libkineto_init HAS_CUPTI cpuOnly logOnError ;;
      rs <- init_each HAS_CUPTI rest ;;
      ret (r :: rs)
  end.

End InitVocabulary.

(** ** Contexts started and stopped *)

(** The contexts passed to [EventProfilerController::stop], in call
    order. *)
Fixpoint stops_of (t : Trace) : list CUcontext :=
  match t with
  | [] => []
  | Call_EventProfilerController_stop ctx :: rest => ctx :: stops_of rest
  | _ :: rest => stops_of rest
  end.

(** The contexts passed to [EventProfilerController::start], in call
    order. *)
Fixpoint starts_of (t : Trace) : list CUcontext :=
  match t with
  | [] => []
  | Call_EventProfilerController_start ctx _ :: rest => ctx :: starts_of rest
  | _ :: rest => starts_of rest
  end.

(** A [getenv] that found the variable set. *)
Definition is_toggle_set (c : Call) : bool :=
  match c with Call_getenv _ (Some _) => true | _ => false end.

(** The contexts of the context-destroyed callbacks of a run, in order. *)
Definition destroyed_contexts {X : Type} (evs : list (HostEvent X))
    : list CUcontext :=
  flat_map (fun ev => match ev with
                      | ContextDestroyed _ _ i => [context i]
                      | _ => []
                      end) evs.

(** The contexts of the context-created callbacks of a run, in order. *)
Definition created_contexts {X : Type} (evs : list (HostEvent X))
    : list CUcontext :=
  flat_map (fun ev => match ev with
                      | ContextCreated _ _ i => [context i]
                      | _ => []
                      end) evs.

(** ** Vocabulary of the interleavings *)

(** The mutex after the lock and unlock statements of a trace, starting
    held or free; [None] if the trace locks a held mutex or unlocks a free
    one. *)
Fixpoint mutex_after (held : bool) (t : Trace) : option bool :=
  match t with
  | [] => Some held
  | Lock_initMutex :: rest => if held then None else mutex_after true rest
  | Unlock_initMutex :: rest => if held then mutex_after false rest else None
  | _ :: rest => mutex_after held rest
  end.

(** The context a thread has yet to stop. *)
Definition stop_pending (t : Thread) : list CUcontext :=
  match pc t with
  | Destroyed_log | Destroyed_lock | Destroyed_stop => [context (cbInfo_of t)]
  | _ => []
  end.

(** The context a thread has yet to start, as long as it has not read the
    toggle as set. *)
Definition start_pending (t : Thread) : list CUcontext :=
  match pc t with
  | Created_log | Created_lock | Created_test | Created_activate
  | Created_set | Created_log_activated | Created_getenv
  | Created_configLoader | Created_initBaseConfig _ | Created_start _ =>
      [context (cbInfo_of t)]
  | _ => []
  end.

Definition is_callback {X : Type} (ev : HostEvent X) : bool :=
  match ev with Elsewhere _ => false | _ => true end.

Definition destroyed_count {X : Type} (evs : list (HostEvent X)) : nat :=
  List.length (destroyed_contexts evs).

(** The threads of the callbacks once they have all returned. *)
Definition returned_threads {X : Type} (evs : list (HostEvent X)) : Pool :=
  flat_map (fun ev => match ev with
                      | ContextCreated _ _ i => [mkThread Created_returned i]
                      | ContextDestroyed _ _ i =>
                          [mkThread Destroyed_returned i]
                      | Elsewhere _ => []
                      end) evs.

Section CountedSteps.

Context {X : Type} `{HX : Collaborators X}.

(** Interleavings with their number of statements. *)
Inductive pool_steps_n : nat -> Pool * Shared X -> Pool * Shared X -> Prop :=
| pool_steps_n_refl : forall c, pool_steps_n 0 c c
| pool_steps_n_step : forall n c1 c2 c3,
    pool_step c1 c2 -> pool_steps_n n c2 c3 -> pool_steps_n (S n) c1 c3.

End CountedSteps.

(** ** Effects on the external state *)

Section Effects.

Context {X : Type} `{HX : Collaborators X}.

(** What lines 63-69 of [initProfilers] do to the external state [x] on
    which [getenv] is called. *)
Definition collection_effect (cbInfo : CUpti_ResourceData) (x : X) : X :=
  match getenv "KINETO_DISABLE_EVENT_PROFILER" x with
  | Some _ => x
  | None =>
      let loader := fst (configLoader x) in
      EventProfilerController_start (context cbInfo) loader
        (initBaseConfig loader (snd (configLoader x)))
  end.

(** The external state after the events of a run when none of them
    activates: each context-created callback does its event collection
    part, each context-destroyed callback its stop. *)
Fixpoint quiet_effects (evs : list (HostEvent X)) (x : X) : X :=
  match evs with
  | [] => x
  | ContextCreated _ _ i :: rest => quiet_effects rest (collection_effect i x)
  | ContextDestroyed _ _ i :: rest =>
      quiet_effects rest (EventProfilerController_stop (context i) x)
  | Elsewhere f :: rest => quiet_effects rest (f x)
  end.

(** The external state after the events of a run that starts with the flag
    at [init]: the first context-created callback that finds the flag clear
    activates before its event collection part. *)
Fixpoint host_effects (evs : list (HostEvent X)) (init : bool) (x : X) : X :=
  match evs with
  | [] => x
  | ContextCreated _ _ i :: rest =>
      host_effects rest true
        (collection_effect i
           (if init then x else initProfilerIfRegistered x))
  | ContextDestroyed _ _ i :: rest =>
      host_effects rest init (EventProfilerController_stop (context i) x)
  | Elsewhere f :: rest => host_effects rest init (f x)
  end.

(** The external state when [libkineto_init] reaches line 120: after
    [singleton], the registration phase and the second [initSuccess]. *)
Definition ext_at_diagnostics (w : World X) : X :=
  snd (initSuccess
         (ext (after (register_and_enable
                        (mkWorld (initialized w) (ext_at_probe w)))))).

(** Everything that goes to the logger. *)
Definition is_log (c : Call) : bool :=
  match c with
  | LOG _ _ | SET_LOG_SEVERITY_LEVEL _ | CUPTI_CALL _ => true
  | _ => false
  end.

(** The three statements of lines 121-125 that log. *)
Definition logged_lines (status : CUptiResult) : Trace :=
  [CUPTI_CALL status;
   LOG WARNING
     "CUPTI initialization failed - CUDA profiler activities will be missing";
   LOG INFO
     "If you see CUPTI_ERROR_INSUFFICIENT_PRIVILEGES, refer to https://developer.nvidia.com/nvidia-development-tools-solutions-err-nvgpuctrperm-cupti"].

Definition same_answer (a b : option string) : bool :=
  match a, b with
  | Some s, Some t => String.eqb s t
  | None, None => true
  | _, _ => false
  end.

(** What a recorded statement does to the external state; [None] when the
    answer it records is not the one the collaborator gives on that
    state. *)
Definition replay (c : Call) (x : X) : option X :=
  match c with
  | LOG _ _ | SET_LOG_SEVERITY_LEVEL _ | Lock_initMutex | Unlock_initMutex
  | CUPTI_CALL _ => Some x
  | Call_getenv name r =>
      if same_answer r (getenv name x) then Some x else None
  | Call_initProfilerIfRegistered => Some (initProfilerIfRegistered x)
  | Call_configLoader r =>
      if Z.eqb r (fst (configLoader x)) then Some (snd (configLoader x))
      else None
  | Call_initBaseConfig loader => Some (initBaseConfig loader x)
  | Call_EventProfilerController_start ctx loader =>
      Some (EventProfilerController_start ctx loader x)
  | Call_EventProfilerController_stop ctx =>
      Some (EventProfilerController_stop ctx x)
  | Call_singleton => Some (singleton x)
  | Call_initSuccess r =>
      if Bool.eqb r (fst (initSuccess x)) then Some (snd (initSuccess x))
      else None
  | Call_registerCallback d cbid fn r =>
      if Bool.eqb r (fst (registerCallback d cbid fn x))
      then Some (snd (registerCallback d cbid fn x)) else None
  | Call_enableCallback d cbid r =>
      if Bool.eqb r (fst (enableCallback d cbid x))
      then Some (snd (enableCallback d cbid x)) else None
  | Call_getCuptiStatus r =>
      if Z.eqb r (fst (getCuptiStatus x)) then Some (snd (getCuptiStatus x))
      else None
  | Call_registerProfiler p => Some (registerProfiler p x)
  end.

(** A trace replayed on an external state, statement by statement. *)
Fixpoint replay_all (t : Trace) (x : X) : option X :=
  match t with
  | [] => Some x
  | c :: rest =>
      match replay c x with
      | Some x' => replay_all rest x'
      | None => None
      end
  end.

(** A computation whose trace accounts for all it does to the external
    state: replaying the trace on the state it started from gives the state
    it ends in. *)
Definition faithful {A : Type} (m : M X A) : Prop :=
  forall w, replay_all (trace_of (m w)) (ext w) = Some (ext (after (m w))).

(** The statements a schedule really executes: the turns that are not
    lost. *)
Fixpoint steps_taken (turns : list nat) (c : Pool * Shared X) : nat :=
  match turns with
  | [] => 0
  | i :: rest =>
      match nth_error (fst c) i with
      | Some t =>
          match thread_step t (snd c) with
          | Some (t', s') =>
              S (steps_taken rest
                   (firstn i (fst c) ++ t' :: skipn (S i) (fst c), s'))
          | None => steps_taken rest c
          end
      | None => steps_taken rest c
      end
  end.

End Effects.

(** ** Schedules on the concrete process *)

Module Schedules.

(** The four threads of [Fake.two_contexts]: the two context-destroyed
    handlers run first, B before A, then the two context-created
    handlers. *)
Definition destroyed_first : list nat :=
  repeat 3 4 ++ repeat 2 4 ++ repeat 0 12 ++ repeat 1 12.

Definition after_destroyed_first : Pool * Shared Fake.Process :=
  schedule destroyed_first (spawn_all Fake.two_contexts, at_attach Fake.gpu).

Definition after_b_waits_for_a : Pool * Shared Fake.Process :=
  schedule Fake.b_waits_for_a (spawn_all Fake.two_created, at_attach Fake.gpu).

(** Thread A has taken the mutex and called [initProfilerIfRegistered];
    thread B has logged its first line. *)
Definition a_inside : Pool * Shared Fake.Process :=
  schedule [1; 0; 0; 0; 0] (spawn_all Fake.two_created, at_attach Fake.gpu).

(** A process on which a profiler has been registered. *)
Definition gpu_registered : Fake.Process :=
  Fake.set_profiler (mkActivityProfilerProxy false 4096%Z) Fake.gpu.

Definition contended_turns : list nat := [1; 0; 0; 0; 0; 1].

End Schedules.

(** * Properties *)

(** ** Traces *)

Lemma count_app (p : Call -> bool) (s t : Trace) :
  count p (s ++ t) = count p s + count p t.
Proof. unfold count. now rewrite filter_app, length_app. Qed.

Lemma absent_app (p : Call -> bool) (s t : Trace) :
  absent p (s ++ t) <-> absent p s /\ absent p t.
Proof.
  unfold absent. rewrite filter_app. split.
  - intros E. now apply app_eq_nil in E.
  - intros [-> ->]. reflexivity.
Qed.

Lemma absent_count (p : Call -> bool) (t : Trace) :
  absent p t <-> count p t = 0.
Proof.
  unfold absent, count. split.
  - now intros ->.
  - now intros E%length_zero_iff_nil.
Qed.

(** ** The monad *)

Section MonadFacts.

Context {X : Type} `{HX : Collaborators X}.

Lemma bind_run {A B : Type} (m : M X A) (f : A -> M X B) (w : World X) :
  bind m f w =
  (result (f (result (m w)) (after (m w))),
   after (f (result (m w)) (after (m w))),
   trace_of (m w) ++ trace_of (f (result (m w)) (after (m w)))).
Proof.
  unfold bind, result, after, trace_of.
  destruct (m w) as [[a w1] t1]. simpl.
  destruct (f a w1) as [[b w2] t2]. reflexivity.
Qed.

End MonadFacts.

(** ** The handlers *)

Section HandlerFacts.

Context {X : Type} `{HX : Collaborators X}.

(** [initProfilers], executed: the toggle is read from the state the
    activation leaves, and decides between the two tails. *)
Lemma initProfilers_run d c (cbInfo : CUpti_ResourceData) (w : World X) :
  initProfilers d c cbInfo w =
  match getenv "KINETO_DISABLE_EVENT_PROFILER" (ext_at_getenv w) with
  | Some v =>
      (tt, mkWorld true (ext_at_getenv w),
       [LOG (VERBOSE 0) "CUDA Context created"; Lock_initMutex]
       ++ activation_trace w
       ++ [Call_getenv "KINETO_DISABLE_EVENT_PROFILER" (Some v);
           LOG (VERBOSE 0) "Event profiler disabled via env var";
           Unlock_initMutex])
  | None =>
      let loader := fst (configLoader (ext_at_getenv w)) in
      (tt,
       mkWorld true
         (EventProfilerController_start (context cbInfo) loader
            (initBaseConfig loader (snd (configLoader (ext_at_getenv w))))),
       [LOG (VERBOSE 0) "CUDA Context created"; Lock_initMutex]
       ++ activation_trace w
       ++ [Call_getenv "KINETO_DISABLE_EVENT_PROFILER" None;
           Call_configLoader loader;
           Call_initBaseConfig loader;
           Call_EventProfilerController_start (context cbInfo) loader;
           Unlock_initMutex])
  end.
Proof.
  unfold initProfilers, lock_guard_initMutex, ext_at_getenv, activation_trace.
  unfold bind, emit, call, ask, ret, read_initialized, write_initialized.
  destruct w as [[|] x]; simpl.
  - destruct (getenv _ x) as [v|]; simpl; [reflexivity|].
    destruct (configLoader x) as [l x']; reflexivity.
  - destruct (getenv _ (initProfilerIfRegistered x)) as [v|]; simpl;
      [reflexivity|].
    destruct (configLoader (initProfilerIfRegistered x)) as [l x']; reflexivity.
Qed.

Lemma stopProfiler_run d c (cbInfo : CUpti_ResourceData) (w : World X) :
  stopProfiler d c cbInfo w =
  (tt,
   mkWorld (initialized w) (EventProfilerController_stop (context cbInfo) (ext w)),
   [LOG INFO "CUDA Context destroyed"; Lock_initMutex;
    Call_EventProfilerController_stop (context cbInfo); Unlock_initMutex]).
Proof. reflexivity. Qed.

Lemma initProfilers_initialized d c cbInfo (w : World X) :
  initialized (after (initProfilers d c cbInfo w)) = true.
Proof.
  rewrite initProfilers_run.
  now destruct (getenv _ (ext_at_getenv w)).
Qed.

Lemma activation_trace_count (w : World X) :
  count is_activation (activation_trace w) = if initialized w then 0 else 1.
Proof. unfold activation_trace. now destruct (initialized w). Qed.

Lemma initProfilers_activations d c cbInfo (w : World X) :
  count is_activation (trace_of (initProfilers d c cbInfo w)) =
  if initialized w then 0 else 1.
Proof.
  rewrite initProfilers_run. unfold activation_trace.
  destruct (getenv _ (ext_at_getenv w)), (initialized w); reflexivity.
Qed.

End HandlerFacts.

(** ** Runs of the host *)

Section RunFacts.

Context {X : Type} `{HX : Collaborators X}.

Lemma run_cons (ev : HostEvent X) (evs : list (HostEvent X)) (w : World X) :
  run (ev :: evs) w =
  (tt, after (run evs (after (host_step ev w))),
   trace_of (host_step ev w) ++ trace_of (run evs (after (host_step ev w)))).
Proof.
  cbn [run]. rewrite bind_run.
  destruct (result (run evs (after (host_step ev w)))). reflexivity.
Qed.

Lemma run_app (pre post : list (HostEvent X)) (w : World X) :
  run (pre ++ post) w =
  (tt, after (run post (after (run pre w))),
   trace_of (run pre w) ++ trace_of (run post (after (run pre w)))).
Proof.
  revert w. induction pre as [|ev pre IH]; intros w.
  - cbn. destruct (run post w) as [[[] w'] t]. reflexivity.
  - rewrite <- app_comm_cons, !run_cons, IH.
    unfold after, trace_of; cbn [fst snd]. now rewrite app_assoc.
Qed.

Lemma host_step_initialized (ev : HostEvent X) (w : World X) :
  initialized (after (host_step ev w)) = initialized w || is_created ev.
Proof.
  destruct ev as [d c i|d c i|f]; cbn [host_step invoke is_created].
  - rewrite initProfilers_initialized. now rewrite orb_true_r.
  - rewrite stopProfiler_run. cbn. now rewrite orb_false_r.
  - cbn. now rewrite orb_false_r.
Qed.

Lemma host_step_activations (ev : HostEvent X) (w : World X) :
  count is_activation (trace_of (host_step ev w)) =
  if is_created ev && negb (initialized w) then 1 else 0.
Proof.
  destruct ev as [d c i|d c i|f]; cbn [host_step invoke is_created].
  - rewrite initProfilers_activations. now destruct (initialized w).
  - reflexivity.
  - reflexivity.
Qed.

Lemma created_count_cons (ev : HostEvent X) (evs : list (HostEvent X)) :
  created_count (ev :: evs) =
  (if is_created ev then 1 else 0) + created_count evs.
Proof. unfold created_count. cbn [filter]. now destruct (is_created ev). Qed.

Lemma created_count_app (pre post : list (HostEvent X)) :
  created_count (pre ++ post) = created_count pre + created_count post.
Proof. unfold created_count. now rewrite filter_app, length_app. Qed.

(** The flag after a run: set before, or set by a context-created callback
    of the run.  It is never cleared. *)
Lemma run_initialized (evs : list (HostEvent X)) (w : World X) :
  initialized (after (run evs w)) =
  initialized w || (0 <? created_count evs)%nat.
Proof.
  revert w. induction evs as [|ev evs IH]; intros w.
  - cbn. now rewrite orb_false_r.
  - rewrite run_cons. cbn [after fst snd]. rewrite IH, host_step_initialized.
    rewrite created_count_cons.
    destruct (initialized w), (is_created ev); reflexivity.
Qed.

(** The number of activations in a run. *)
Lemma run_activations (evs : list (HostEvent X)) (w : World X) :
  count is_activation (trace_of (run evs w)) =
  if negb (initialized w) && (0 <? created_count evs)%nat then 1 else 0.
Proof.
  revert w. induction evs as [|ev evs IH]; intros w.
  - cbn. now rewrite andb_false_r.
  - rewrite run_cons. cbn [trace_of snd].
    rewrite count_app, IH, host_step_activations, host_step_initialized.
    rewrite created_count_cons.
    destruct (initialized w), (is_created ev); cbn; try reflexivity.
Qed.

(** The external state a context-created callback leaves. *)
Lemma initProfilers_ext d c (cbInfo : CUpti_ResourceData) (w : World X) :
  ext (after (initProfilers d c cbInfo w)) =
  collection_effect cbInfo (ext_at_getenv w).
Proof.
  rewrite initProfilers_run. unfold collection_effect.
  now destruct (getenv _ (ext_at_getenv w)).
Qed.

(** The external state a run leaves. *)
Lemma run_ext (evs : list (HostEvent X)) (w : World X) :
  ext (after (run evs w)) = host_effects evs (initialized w) (ext w).
Proof.
  revert w. induction evs as [|ev evs IH]; intros w; [reflexivity|].
  rewrite run_cons. cbn [after fst snd]. rewrite IH.
  destruct ev as [d c i|d c i|f]; cbn [host_step invoke host_effects].
  - now rewrite initProfilers_initialized, initProfilers_ext.
  - now rewrite stopProfiler_run.
  - reflexivity.
Qed.

Lemma host_effects_quiet (evs : list (HostEvent X)) (x : X) :
  host_effects evs true x = quiet_effects evs x.
Proof.
  revert x. induction evs as [|[d c i|d c i|f] evs IH]; intros x;
    cbn [host_effects quiet_effects]; [reflexivity | apply IH ..].
Qed.

Lemma host_effects_no_created (evs : list (HostEvent X)) (init : bool) (x : X) :
  created_count evs = 0 -> host_effects evs init x = quiet_effects evs x.
Proof.
  revert x. induction evs as [|[d c i|d c i|f] evs IH]; intros x;
    rewrite ?created_count_cons; cbn [host_effects quiet_effects is_created];
    intros N; [reflexivity | discriminate N | apply IH; exact N ..].
Qed.

Lemma host_effects_app (pre post : list (HostEvent X)) (init : bool) (x : X) :
  host_effects (pre ++ post) init x =
  host_effects post (init || (0 <? created_count pre)%nat)
    (host_effects pre init x).
Proof.
  revert init x. induction pre as [|[d c i|d c i|f] pre IH]; intros init x;
    rewrite <- ?app_comm_cons, ?created_count_cons;
    cbn [host_effects is_created app].
  - cbn. now rewrite orb_false_r.
  - rewrite IH. cbn. now rewrite orb_true_r.
  - apply IH.
  - apply IH.
Qed.

(** C1.  From the state at process attach ([initialized] is false), in every
    run of the host with at least one context-created callback:
    [initProfilerIfRegistered] is called exactly once in the whole run; no
    call happens before the first context-created callback and that
    callback makes the call; every context-created callback of the run
    returns with the flag set; and once the flag is set no later event of
    the run clears it.  On the external state: what precedes the first
    context-created callback does not activate, that callback applies
    [initProfilerIfRegistered] to the state it finds and then does its
    event collection part, what follows does not activate again; so the
    state the run leaves is the one obtained by activating once, at that
    point. *)
Theorem activation_exactly_once :
  forall (evs : list (HostEvent X)) (w : World X),
    initialized w = false ->
    1 <= created_count evs ->
    count is_activation (trace_of (run evs w)) = 1
    /\ (forall pre d c cbInfo post,
           evs = pre ++ ContextCreated d c cbInfo :: post ->
           created_count pre = 0 ->
           count is_activation (trace_of (run pre w)) = 0
           /\ count is_activation
                (trace_of (initProfilers d c cbInfo (after (run pre w)))) = 1
           /\ count is_activation
                (trace_of
                   (run post
                      (after (initProfilers d c cbInfo (after (run pre w))))))
              = 0)
    /\ (forall pre d c cbInfo post,
           evs = pre ++ ContextCreated d c cbInfo :: post ->
           initialized (after (initProfilers d c cbInfo (after (run pre w))))
           = true)
    /\ (forall pre post,
           evs = pre ++ post ->
           initialized (after (run pre w)) = true ->
           initialized (after (run (pre ++ post) w)) = true)
    /\ (forall pre d c cbInfo post,
           evs = pre ++ ContextCreated d c cbInfo :: post ->
           created_count pre = 0 ->
           ext (after (run pre w)) = quiet_effects pre (ext w)
           /\ ext (after (initProfilers d c cbInfo (after (run pre w)))) =
              collection_effect cbInfo
                (initProfilerIfRegistered (quiet_effects pre (ext w)))
           /\ ext (after (run evs w)) =
              quiet_effects post
                (collection_effect cbInfo
                   (initProfilerIfRegistered (quiet_effects pre (ext w)))))
    /\ (forall pre d c cbInfo post,
           evs = pre ++ ContextCreated d c cbInfo :: post ->
           1 <= created_count pre ->
           ext (after (initProfilers d c cbInfo (after (run pre w)))) =
           collection_effect cbInfo (ext (after (run pre w)))).
Proof.
  intros evs w Hw Hn. split; [|split; [|split; [|split; [|split]]]].
  - rewrite run_activations, Hw.
    destruct (Nat.ltb_spec 0 (created_count evs)); [reflexivity | lia].
  - intros pre d c cbInfo post _ Hpre. split; [|split].
    + rewrite run_activations, Hw, Hpre. reflexivity.
    + rewrite initProfilers_activations, run_initialized, Hw, Hpre.
      reflexivity.
    + rewrite run_activations, initProfilers_initialized. reflexivity.
  - intros pre d c cbInfo post _. apply initProfilers_initialized.
  - intros pre post _ Hpre. rewrite run_app. cbn [after fst snd].
    rewrite run_initialized, Hpre. reflexivity.
  - intros pre d c cbInfo post E Hpre.
    assert (Q : ext (after (run pre w)) = quiet_effects pre (ext w)).
    { rewrite run_ext. now apply host_effects_no_created. }
    split; [exact Q|]. split.
    + rewrite initProfilers_ext. unfold ext_at_getenv.
      now rewrite run_initialized, Hw, Hpre, Q.
    + subst evs. rewrite run_ext, Hw, host_effects_app, Hpre.
      cbn [orb Nat.ltb Nat.leb host_effects].
      now rewrite host_effects_quiet, host_effects_no_created.
  - intros pre d c cbInfo post _ Hpre.
    rewrite initProfilers_ext. unfold ext_at_getenv.
    rewrite run_initialized, Hw.
    destruct (Nat.ltb_spec 0 (created_count pre)); [reflexivity | lia].
Qed.

End RunFacts.

(** ** Claims about the handlers *)

Section HandlerClaims.

Context {X : Type} `{HX : Collaborators X}.

(** C5.  In every context-created callback the activation is decided by the
    flag alone, whatever the toggle says, and the callback returns with the
    flag set.  When [KINETO_DISABLE_EVENT_PROFILER] is set as the callback
    reads it, no [EventProfilerController::start] is issued and the callback
    changes nothing outside beyond the activation.  Otherwise the callback
    ends by fetching the loader, calling [initBaseConfig] on it and then
    [EventProfilerController::start] with the context of the callback, and
    that is its only start. *)
Theorem created_callback_event_collection :
  forall d c (cbInfo : CUpti_ResourceData) (w : World X),
    let r := initProfilers d c cbInfo w in
    count is_activation (trace_of r) = (if initialized w then 0 else 1)
    /\ initialized (after r) = true
    /\ (exists rest,
           trace_of r =
           [LOG (VERBOSE 0) "CUDA Context created"; Lock_initMutex]
           ++ activation_trace w ++ rest
           /\ absent is_activation rest)
    /\ match getenv "KINETO_DISABLE_EVENT_PROFILER" (ext_at_getenv w) with
       | Some _ =>
           absent is_start (trace_of r)
           /\ ext (after r) = ext_at_getenv w
       | None =>
           exists before loader x,
             trace_of r =
             before ++ [Call_initBaseConfig loader;
                        Call_EventProfilerController_start (context cbInfo) loader;
                        Unlock_initMutex]
             /\ absent is_start before
             /\ configLoader (ext_at_getenv w) = (loader, x)
             /\ ext (after r) =
                EventProfilerController_start (context cbInfo) loader
                  (initBaseConfig loader x)
       end.
Proof.
  intros d c cbInfo w r. subst r.
  split; [apply initProfilers_activations|].
  split; [apply initProfilers_initialized|].
  rewrite initProfilers_run.
  destruct (getenv _ (ext_at_getenv w)) as [v|] eqn:E.
  - split; [eexists; split; [reflexivity|reflexivity]|].
    split; [|reflexivity].
    unfold activation_trace. destruct (initialized w); reflexivity.
  - destruct (configLoader (ext_at_getenv w)) as [loader x] eqn:L.
    split; [eexists; split; [reflexivity|reflexivity]|].
    exists ([LOG (VERBOSE 0) "CUDA Context created"; Lock_initMutex]
            ++ activation_trace w
            ++ [Call_getenv "KINETO_DISABLE_EVENT_PROFILER" None;
                Call_configLoader loader]), loader, x.
    cbn [trace_of after fst snd ext].
    split; [now rewrite <- !app_assoc|].
    split; [|split; reflexivity].
    unfold activation_trace. destruct (initialized w); reflexivity.
Qed.

(** C6.  A context-destroyed callback makes one collaborator call,
    [EventProfilerController::stop] on the context of the callback, whatever
    the state it runs in (so also when no start was ever issued for that
    context).  It leaves [initialized] as it was, calls neither
    [registerProfiler] nor [initProfilerIfRegistered], and the external
    state changes by that stop call only. *)
Theorem destroyed_callback_only_stops :
  forall d c (cbInfo : CUpti_ResourceData) (w : World X),
    let r := stopProfiler d c cbInfo w in
    filter is_collaborator_call (trace_of r) =
      [Call_EventProfilerController_stop (context cbInfo)]
    /\ initialized (after r) = initialized w
    /\ ext (after r) = EventProfilerController_stop (context cbInfo) (ext w)
    /\ absent is_registerProfiler (trace_of r)
    /\ absent is_activation (trace_of r).
Proof.
  intros d c cbInfo w r. subst r. rewrite stopProfiler_run.
  repeat split.
Qed.

End HandlerClaims.

(** ** Library initialisation *)

(** Symbolic execution: unfold the monad, then split on the innermost
    collaborator result or branch condition. *)
Ltac unfold_m :=
  cbv [bind ask call emit ret and_then result after trace_of];
  cbn [initialized ext fst snd].

Ltac step_call :=
  match goal with
  | |- context [match ?e with pair _ _ => _ end] =>
      lazymatch e with
      | context [match _ with pair _ _ => _ end] => fail
      | context [if _ then _ else _] => fail
      | _ => destruct e eqn:?
      end
  | |- context [if ?b then _ else _] =>
      lazymatch b with
      | context [match _ with pair _ _ => _ end] => fail
      | context [if _ then _ else _] => fail
      | _ => destruct b eqn:?
      end
  end; cbn [initialized ext fst snd negb orb andb].

Ltac exec := unfold_m; repeat step_call.

Section InitFacts.

Context {X : Type} `{HX : Collaborators X}.

(** [libkineto_init] after its [HAS_CUPTI] block: lines 131-135. *)
Lemma libkineto_init_run (HAS_CUPTI cpuOnly logOnError : bool) (w : World X) :
  let r := (if HAS_CUPTI then cupti_block cpuOnly logOnError
            else ret (true, cpuOnly)) w in
  let loader := fst (configLoader (ext (after r))) in
  let proxy := mkActivityProfilerProxy (snd (result r)) loader in
  libkineto_init HAS_CUPTI cpuOnly logOnError w =
  (fst (result r),
   mkWorld (initialized (after r))
     (registerProfiler proxy (snd (configLoader (ext (after r))))),
   trace_of r ++ [Call_configLoader loader; Call_registerProfiler proxy]).
Proof.
  cbv zeta. unfold libkineto_init.
  destruct (if HAS_CUPTI then _ else _) as [[[success cpuOnly'] w1] t1] eqn:E.
  unfold bind at 1. rewrite E. unfold_m.
  destruct (configLoader (ext w1)) as [loader x]. cbn. reflexivity.
Qed.

(** The [HAS_CUPTI] block when [cpuOnly] is false: lines 99-127. *)
Lemma cupti_block_run (logOnError : bool) (w : World X) :
  let r := register_and_enable (mkWorld (initialized w) (singleton (ext w))) in
  let probe := initSuccess (ext (after r)) in
  let head := Call_singleton :: trace_of r ++ [Call_initSuccess (fst probe)] in
  cupti_block false logOnError w =
  if negb (fst probe) || negb (result r) then
    if logOnError then
      (false, true,
       mkWorld (initialized (after r)) (snd (getCuptiStatus (snd probe))),
       head ++ diagnostics (fst (getCuptiStatus (snd probe))))
    else (false, true, mkWorld (initialized (after r)) (snd probe), head)
  else (true, false, mkWorld (initialized (after r)) (snd probe), head).
Proof.
  cbv zeta. unfold cupti_block, log_cupti_failure, diagnostics.
  cbn [negb].
  destruct (register_and_enable _) as [[status w1] t1] eqn:E.
  unfold bind at 1. unfold call at 1. cbn [initialized ext].
  unfold bind at 1. rewrite E. unfold_m.
  destruct (initSuccess (ext w1)) as [i x]. cbn [fst snd].
  destruct (negb i || negb status).
  - destruct logOnError; cbn.
    + destruct (getCuptiStatus x) as [s x']. cbn.
      now rewrite <- app_assoc.
    + now rewrite ?app_nil_r.
  - cbn. now rewrite ?app_nil_r.
Qed.


Lemma register_and_enable_initialized (w : World X) :
  initialized (after (register_and_enable w)) = initialized w.
Proof. unfold register_and_enable. exec; reflexivity. Qed.

(** The registration phase calls the gateway and nothing else. *)
Lemma register_and_enable_quiet (w : World X) :
  let t := trace_of (register_and_enable w) in
  absent is_diagnostic t /\ absent is_registerProfiler t
  /\ absent is_lock t /\ absent is_unlock t /\ absent is_warning t
  /\ registered_profilers t = [].
Proof. unfold register_and_enable. exec; repeat split. Qed.

Lemma register_and_enable_unavailable (w : World X) :
  fst (initSuccess (ext w)) = false ->
  register_and_enable w =
  (false, mkWorld (initialized w) (snd (initSuccess (ext w))),
   [Call_initSuccess false]).
Proof.
  intros E. unfold register_and_enable. unfold_m.
  destruct (initSuccess (ext w)) as [i x]. cbn [fst snd] in *. now subst i.
Qed.

Lemma register_and_enable_fails (w : World X) :
  fst (initSuccess (ext w)) = true ->
  registration_fails (snd (initSuccess (ext w))) ->
  result (register_and_enable w) = false.
Proof.
  intros E F. unfold register_and_enable. exec; try reflexivity.
  cbn [fst snd] in F.
  destruct F as [F|y1 R1 F|y1 y2 R1 R2 F|y1 y2 y3 R1 R2 E1 F];
    repeat match goal with
    | H : ?a = (_, _), H' : context [?a] |- _ =>
        rewrite H in H'; cbn [fst snd] in H'
    | H : (_, _) = (_, _) |- _ => inversion H; clear H; subst
    end; try discriminate; assumption.
Qed.

Lemma registered_profilers_app (s t : Trace) :
  registered_profilers (s ++ t) =
  registered_profilers s ++ registered_profilers t.
Proof.
  induction s as [|c s IH]; [reflexivity|].
  destruct c; cbn; now rewrite ?IH.
Qed.

(** [libkineto_init(false, logOnError)] under [HAS_CUPTI] succeeds exactly
    when the registration phase ends with [status] true and the second
    [initSuccess] answers true. *)
Lemma libkineto_init_result (logOnError : bool) (w : World X) :
  let r := register_and_enable (mkWorld (initialized w) (ext_at_probe w)) in
  result (libkineto_init true false logOnError w) =
  fst (initSuccess (ext (after r))) && result r.
Proof.
  cbv zeta. rewrite libkineto_init_run. cbv zeta.
  rewrite cupti_block_run. cbv zeta. unfold ext_at_probe.
  destruct (fst (initSuccess _)), (result (register_and_enable _)),
    logOnError; reflexivity.
Qed.

(** The run of a fallback. *)
Lemma libkineto_init_fallback (logOnError : bool) (w : World X) :
  let r := register_and_enable (mkWorld (initialized w) (ext_at_probe w)) in
  let probe := initSuccess (ext (after r)) in
  let x := if logOnError then snd (getCuptiStatus (snd probe)) else snd probe in
  let status := fst (getCuptiStatus (snd probe)) in
  let loader := fst (configLoader x) in
  fst probe && result r = false ->
  libkineto_init true false logOnError w =
  (false,
   mkWorld (initialized w)
     (registerProfiler (mkActivityProfilerProxy true loader)
        (snd (configLoader x))),
   (Call_singleton :: trace_of r ++ [Call_initSuccess (fst probe)])
   ++ fallback_tail logOnError status loader).
Proof.
  cbv zeta. intros F. rewrite libkineto_init_run. cbv zeta.
  rewrite cupti_block_run. cbv zeta. unfold ext_at_probe in *.
  assert (C : negb (fst (initSuccess (ext (after (register_and_enable
                {| initialized := initialized w;
                   ext := singleton (ext w) |})))))
              || negb (result (register_and_enable
                {| initialized := initialized w;
                   ext := singleton (ext w) |})) = true).
  { rewrite <- negb_andb, F. reflexivity. }
  rewrite C. unfold fallback_tail, cpu_only_registration.
  destruct logOnError; cbn [result after trace_of fst snd initialized ext];
    rewrite register_and_enable_initialized; cbn [initialized];
    rewrite <- ?app_assoc, ?app_nil_r; reflexivity.
Qed.

(** The run that establishes the GPU path. *)
Lemma libkineto_init_gpu (logOnError : bool) (w : World X) :
  let r := register_and_enable (mkWorld (initialized w) (ext_at_probe w)) in
  let probe := initSuccess (ext (after r)) in
  let loader := fst (configLoader (snd probe)) in
  fst probe && result r = true ->
  libkineto_init true false logOnError w =
  (true,
   mkWorld (initialized w)
     (registerProfiler (mkActivityProfilerProxy false loader)
        (snd (configLoader (snd probe)))),
   (Call_singleton :: trace_of r ++ [Call_initSuccess (fst probe)])
   ++ [Call_configLoader loader;
       Call_registerProfiler (mkActivityProfilerProxy false loader)]).
Proof.
  cbv zeta. intros F. rewrite libkineto_init_run. cbv zeta.
  rewrite cupti_block_run. cbv zeta. unfold ext_at_probe in *.
  apply andb_prop in F. destruct F as [F1 F2]. rewrite F1, F2.
  cbn [negb orb result after trace_of fst snd initialized ext].
  rewrite register_and_enable_initialized. reflexivity.
Qed.

(** Lines 92-136 take no lock. *)
Lemma libkineto_init_no_lock (HAS_CUPTI cpuOnly logOnError : bool)
    (w : World X) :
  absent is_lock (trace_of (libkineto_init HAS_CUPTI cpuOnly logOnError w))
  /\ absent is_unlock (trace_of (libkineto_init HAS_CUPTI cpuOnly logOnError w)).
Proof.
  rewrite libkineto_init_run. cbv zeta. cbn [trace_of snd].
  rewrite !absent_app.
  assert (Q := register_and_enable_quiet
                 (mkWorld (initialized w) (singleton (ext w)))).
  cbv zeta in Q. destruct Q as (_ & _ & QL & QU & _).
  destruct HAS_CUPTI; [destruct cpuOnly|].
  - repeat split.
  - rewrite cupti_block_run. cbv zeta.
    destruct (negb _ || negb _); [destruct logOnError|];
      cbn [trace_of snd]; unfold absent, diagnostics in *;
      rewrite ?filter_app; cbn [filter is_lock is_unlock];
      rewrite ?filter_app, ?QL, ?QU; repeat split.
  - repeat split.
Qed.

End InitFacts.

(** ** Claims about library initialisation *)

(** Push [filter] through the appends and conses of a trace. *)
Ltac filter_norm :=
  repeat first
    [ rewrite filter_app
    | progress cbn [filter app is_register_or_enable is_lock is_unlock
                      is_diagnostic is_registerProfiler is_warning is_probe
                      is_enable is_activation] ];
  rewrite ?app_nil_r.

Section InitClaims.

Context {X : Type} `{HX : Collaborators X}.

Lemma fallback_tail_profilers (l : bool) (status : CUptiResult)
    (loader : ConfigLoaderRef) :
  registered_profilers (fallback_tail l status loader) =
  [mkActivityProfilerProxy true loader].
Proof. now destruct l. Qed.

Lemma fallback_tail_diagnostics (l : bool) (status : CUptiResult)
    (loader : ConfigLoaderRef) :
  filter is_diagnostic (fallback_tail l status loader) =
  if l then diagnostics status else [].
Proof. now destruct l. Qed.

(** What precedes the fallback tail holds no diagnostic and no profiler
    registration. *)
Lemma probe_phase_quiet (w : World X) (i : bool) :
  let before :=
    Call_singleton :: trace_of (register_and_enable w) ++ [Call_initSuccess i] in
  absent is_diagnostic before /\ absent is_registerProfiler before
  /\ registered_profilers before = [].
Proof.
  cbv zeta. destruct (register_and_enable_quiet w) as (D & P & _ & _ & _ & R).
  unfold absent in *. cbn [filter is_diagnostic is_registerProfiler
                             registered_profilers].
  rewrite !filter_app, registered_profilers_app, D, P, R. repeat split.
Qed.

(** The registration and enablement calls of [libkineto_init] are those of
    its registration phase. *)
Lemma libkineto_init_registration_calls (l : bool) (w : World X) :
  filter is_register_or_enable (trace_of (libkineto_init true false l w)) =
  filter is_register_or_enable
    (trace_of (register_and_enable (mkWorld (initialized w) (ext_at_probe w)))).
Proof.
  destruct (fst (initSuccess (ext (after (register_and_enable
              (mkWorld (initialized w) (ext_at_probe w))))))
            && result (register_and_enable
                         (mkWorld (initialized w) (ext_at_probe w)))) eqn:E.
  - rewrite (libkineto_init_gpu l w E). cbn [trace_of snd].
    now filter_norm.
  - rewrite (libkineto_init_fallback l w E). cbn [trace_of snd].
    unfold fallback_tail, diagnostics, cpu_only_registration.
    destruct l; now filter_norm.
Qed.

(** Shape of every fallback, shared by the claims below. *)
Lemma fallback_shape (l : bool) (w : World X) :
  result (libkineto_init true false l w) = false ->
  let r := libkineto_init true false l w in
  exists before status loader x,
    trace_of r = before ++ fallback_tail l status loader
    /\ absent is_diagnostic before
    /\ absent is_registerProfiler before
    /\ registered_profilers (trace_of r) = [mkActivityProfilerProxy true loader]
    /\ ext (after r) = registerProfiler (mkActivityProfilerProxy true loader) x
    /\ initialized (after r) = initialized w.
Proof.
  intros F. cbv zeta. rewrite libkineto_init_result in F. cbv zeta in F.
  rewrite (libkineto_init_fallback l w F). cbn [trace_of after fst snd ext initialized].
  destruct (probe_phase_quiet (mkWorld (initialized w) (ext_at_probe w))
              (fst (initSuccess (ext (after (register_and_enable
                 (mkWorld (initialized w) (ext_at_probe w))))))))
    as (D & P & R).
  do 4 eexists. split; [reflexivity|]. split; [exact D|]. split; [exact P|].
  split; [|split; reflexivity].
  rewrite registered_profilers_app, R, fallback_tail_profilers. reflexivity.
Qed.

(** C2.  With [HAS_CUPTI], [cpuOnly = false] and a gateway whose
    [initSuccess()] answers false when first asked, [libkineto_init]
    returns false, makes no [registerCallback] and no [enableCallback]
    call, and registers exactly one profiler, built with [cpuOnly = true];
    the flag [initialized] is not touched. *)
Theorem backend_unavailable_falls_back :
  forall (logOnError : bool) (w : World X),
    fst (initSuccess (ext_at_probe w)) = false ->
    let r := libkineto_init true false logOnError w in
    result r = false
    /\ absent is_register_or_enable (trace_of r)
    /\ (exists loader x,
           registered_profilers (trace_of r) =
             [mkActivityProfilerProxy true loader]
           /\ ext (after r) =
              registerProfiler (mkActivityProfilerProxy true loader) x)
    /\ (exists before status loader,
           trace_of r = before ++ fallback_tail logOnError status loader
           /\ absent is_diagnostic before
           /\ absent is_registerProfiler before)
    /\ initialized (after r) = initialized w.
Proof.
  intros l w E. cbv zeta.
  assert (U := register_and_enable_unavailable
                 (mkWorld (initialized w) (ext_at_probe w)) E).
  assert (F : result (libkineto_init true false l w) = false).
  { rewrite libkineto_init_result. cbv zeta. rewrite U.
    cbn [result fst]. apply andb_false_r. }
  split; [exact F|]. split.
  - unfold absent. rewrite libkineto_init_registration_calls, U. reflexivity.
  - destruct (fallback_shape l w F) as (before & s & loader & x & T & D & P & R & S & I).
    split; [now exists loader, x|]. split; [now exists before, s, loader|].
    exact I.
Qed.

(** C3.  With [HAS_CUPTI], [cpuOnly = false] and [initSuccess()] true when
    first asked, if one of the two registrations or one of the two
    enablements fails, [libkineto_init] returns false and ends as in the
    backend-unavailable case: exactly one profiler is registered, built
    with [cpuOnly = true]. *)
Theorem registration_failure_falls_back :
  forall (logOnError : bool) (w : World X),
    fst (initSuccess (ext_at_probe w)) = true ->
    registration_fails (snd (initSuccess (ext_at_probe w))) ->
    let r := libkineto_init true false logOnError w in
    result r = false
    /\ (exists loader x,
           registered_profilers (trace_of r) =
             [mkActivityProfilerProxy true loader]
           /\ ext (after r) =
              registerProfiler (mkActivityProfilerProxy true loader) x)
    /\ (exists before status loader,
           trace_of r = before ++ fallback_tail logOnError status loader
           /\ absent is_diagnostic before
           /\ absent is_registerProfiler before)
    /\ initialized (after r) = initialized w.
Proof.
  intros l w E R0. cbv zeta.
  assert (F : result (libkineto_init true false l w) = false).
  { rewrite libkineto_init_result. cbv zeta.
    rewrite (register_and_enable_fails
               (mkWorld (initialized w) (ext_at_probe w)) E R0).
    apply andb_false_r. }
  split; [exact F|].
  destruct (fallback_shape l w F) as (before & s & loader & x & T & D & P & R & S & I).
  split; [now exists loader, x|]. split; [now exists before, s, loader|].
  exact I.
Qed.

(** C4.  [libkineto_init(cpuOnly = true, logOnError = false)], with or
    without [HAS_CUPTI]: the gateway is not touched (no [singleton],
    [initSuccess], [registerCallback], [enableCallback] or [getCuptiStatus]
    call), the result is true, nothing is logged, and the whole trace is
    the fetch of the loader followed by the registration of a profiler built
    with [cpuOnly = true]. *)
Theorem cpu_only_skips_probing :
  forall (HAS_CUPTI : bool) (w : World X),
    let r := libkineto_init HAS_CUPTI true false w in
    result r = true
    /\ absent is_probe (trace_of r)
    /\ absent is_warning (trace_of r)
    /\ absent is_diagnostic (trace_of r)
    /\ trace_of r = cpu_only_registration (fst (configLoader (ext w)))
    /\ after r =
       mkWorld (initialized w)
         (registerProfiler
            (mkActivityProfilerProxy true (fst (configLoader (ext w))))
            (snd (configLoader (ext w)))).
Proof.
  intros hc w. cbv zeta. rewrite libkineto_init_run. cbv zeta.
  destruct hc; cbn; repeat split.
Qed.

Lemma InitializeInjection_run (HAS_CUPTI : bool) (w : World X) :
  InitializeInjection HAS_CUPTI w =
  (1%Z, after (libkineto_init HAS_CUPTI false true w),
   LOG INFO "Injection mode: Initializing libkineto"
   :: trace_of (libkineto_init HAS_CUPTI false true w)).
Proof.
  unfold InitializeInjection, bind, emit, ret.
  destruct (libkineto_init HAS_CUPTI false true w) as [[b w1] t1].
  cbn. now rewrite app_nil_r.
Qed.

(** C9.  [InitializeInjection] logs its line, runs
    [libkineto_init(false, true)] and returns 1, a nonzero value, whatever
    [libkineto_init] returned. *)
Theorem injection_returns_one :
  forall (HAS_CUPTI : bool) (w : World X),
    let r := libkineto_init HAS_CUPTI false true w in
    InitializeInjection HAS_CUPTI w =
      (1%Z, after r,
       LOG INFO "Injection mode: Initializing libkineto" :: trace_of r)
    /\ result (InitializeInjection HAS_CUPTI w) <> 0%Z.
Proof.
  intros hc w. cbv zeta. split; [apply InitializeInjection_run|].
  rewrite InitializeInjection_run. discriminate.
Qed.

(** C8.  Whenever [libkineto_init(false, _)] falls back under [HAS_CUPTI],
    the diagnostics (the [CUPTI_CALL] on the gateway status, the warning
    and the remediation line) are in the trace exactly when [logOnError] is
    true.  The run with [logOnError = false] logs nothing, has the same
    trace up to the point of the diagnostics and the same ending, a CPU-only
    registration; both runs return false; and when reading the gateway
    status changes nothing, both runs end in the same state.  The status
    recorded is the answer of [getCuptiStatus] on the state the gateway is
    in at line 121, and the loud run goes on from the state that call
    leaves. *)
Theorem diagnostics_only_when_asked :
  forall (l0 : bool) (w : World X),
    result (libkineto_init true false l0 w) = false ->
    let status := fst (getCuptiStatus (ext_at_diagnostics w)) in
    let loader_loud :=
      fst (configLoader (snd (getCuptiStatus (ext_at_diagnostics w)))) in
    let loader_quiet := fst (configLoader (ext_at_diagnostics w)) in
    exists before,
      (forall l,
          filter is_diagnostic (trace_of (libkineto_init true false l w)) =
          if l then diagnostics status else [])
      /\ (forall l,
             count is_warning (trace_of (libkineto_init true false l w)) =
             if l then 1 else 0)
      /\ trace_of (libkineto_init true false true w) =
         before ++ diagnostics status ++ cpu_only_registration loader_loud
      /\ trace_of (libkineto_init true false false w) =
         before ++ cpu_only_registration loader_quiet
      /\ absent is_diagnostic before
      /\ result (libkineto_init true false true w) = false
      /\ result (libkineto_init true false false w) = false
      /\ ((forall x, snd (getCuptiStatus x) = x) ->
          loader_loud = loader_quiet
          /\ after (libkineto_init true false true w) =
             after (libkineto_init true false false w))
      /\ after (libkineto_init true false true w) =
         mkWorld (initialized w)
           (registerProfiler (mkActivityProfilerProxy true loader_loud)
              (snd (configLoader
                      (snd (getCuptiStatus (ext_at_diagnostics w))))))
      /\ after (libkineto_init true false false w) =
         mkWorld (initialized w)
           (registerProfiler (mkActivityProfilerProxy true loader_quiet)
              (snd (configLoader (ext_at_diagnostics w)))).
Proof.
  intros l0 w F. cbv zeta. unfold ext_at_diagnostics.
  rewrite libkineto_init_result in F. cbv zeta in F.
  pose proof (libkineto_init_fallback true w F) as Loud.
  pose proof (libkineto_init_fallback false w F) as Quiet.
  cbv zeta in Loud, Quiet.
  set (r := register_and_enable (mkWorld (initialized w) (ext_at_probe w))) in *.
  set (probe := initSuccess (ext (after r))) in *.
  destruct (probe_phase_quiet (mkWorld (initialized w) (ext_at_probe w))
              (fst probe)) as (D & P & R).
  fold r in D, P, R.
  exists (Call_singleton :: trace_of r ++ [Call_initSuccess (fst probe)]).
  assert (DT : forall l,
             filter is_diagnostic (trace_of (libkineto_init true false l w)) =
             if l then diagnostics (fst (getCuptiStatus (snd probe))) else []).
  { intros [|]; [rewrite Loud | rewrite Quiet]; cbn [trace_of snd];
      rewrite filter_app, D, fallback_tail_diagnostics; reflexivity. }
  split; [exact DT|]. split.
  { intros l. unfold count.
    assert (W : forall t, filter is_warning t =
                          filter is_warning (filter is_diagnostic t)).
    { induction t as [|[[]| | | | | | | | | | | | | | | |] t IH]; cbn;
        now rewrite ?IH. }
    rewrite W, DT. now destruct l. }
  split; [now rewrite Loud|]. split; [now rewrite Quiet|].
  split; [exact D|]. split; [now rewrite Loud|]. split; [now rewrite Quiet|].
  split; [|split; [now rewrite Loud | now rewrite Quiet]].
  intros Pure. rewrite Loud, Quiet. rewrite Pure. split; reflexivity.
Qed.

(** The calls of the registration phase, case by case. *)
Lemma register_and_enable_calls (w : World X) :
  fst (initSuccess (ext w)) = true ->
  let x := snd (initSuccess (ext w)) in
  let t := filter is_register_or_enable (trace_of (register_and_enable w)) in
  let d := CUPTI_CB_DOMAIN_RESOURCE in
  (fst (registerCallback d RESOURCE_CONTEXT_CREATED Fn_initProfilers x) = false ->
   t = [Call_registerCallback d RESOURCE_CONTEXT_CREATED Fn_initProfilers false])
  /\ (forall x1,
         registerCallback d RESOURCE_CONTEXT_CREATED Fn_initProfilers x
           = (true, x1) ->
         fst (registerCallback d RESOURCE_CONTEXT_DESTROYED Fn_stopProfiler x1)
           = false ->
         t = [Call_registerCallback d RESOURCE_CONTEXT_CREATED Fn_initProfilers true;
              Call_registerCallback d RESOURCE_CONTEXT_DESTROYED Fn_stopProfiler
                false])
  /\ (forall x1 x2,
         registerCallback d RESOURCE_CONTEXT_CREATED Fn_initProfilers x
           = (true, x1) ->
         registerCallback d RESOURCE_CONTEXT_DESTROYED Fn_stopProfiler x1
           = (true, x2) ->
         fst (enableCallback d RESOURCE_CONTEXT_CREATED x2) = false ->
         t = [Call_registerCallback d RESOURCE_CONTEXT_CREATED Fn_initProfilers true;
              Call_registerCallback d RESOURCE_CONTEXT_DESTROYED Fn_stopProfiler
                true;
              Call_enableCallback d RESOURCE_CONTEXT_CREATED false]).
Proof.
  intros E. cbv zeta. unfold register_and_enable. unfold_m.
  destruct (initSuccess (ext w)) as [i x].
  cbn [fst snd initialized ext] in *. subst i. cbn [initialized ext].
  split; [|split].
  - intros F.
    destruct (registerCallback _ _ _ x) as [b y]. cbn in F. subst b.
    reflexivity.
  - intros x1 R1 F. rewrite R1. cbn [initialized ext].
    destruct (registerCallback _ _ _ x1) as [b y]. cbn in F. subst b.
    reflexivity.
  - intros x1 x2 R1 R2 F. rewrite R1. cbn [initialized ext]. rewrite R2.
    cbn [initialized ext].
    destruct (enableCallback _ _ x2) as [b y]. cbn in F. subst b.
    reflexivity.
Qed.

(** C10.  With [HAS_CUPTI], [cpuOnly = false] and [initSuccess()] true when
    first asked, the registration and enablement calls of [libkineto_init]
    stop at the first failure: a failed registration of the context-created
    callback is the only such call; a failed registration of the
    context-destroyed callback is the second and last, with no enablement;
    and a failed enablement of the context-created callback is the third
    and last, the context-destroyed callback is not enabled. *)
Theorem registration_short_circuits :
  forall (logOnError : bool) (w : World X),
    fst (initSuccess (ext_at_probe w)) = true ->
    let x := snd (initSuccess (ext_at_probe w)) in
    let t := filter is_register_or_enable
               (trace_of (libkineto_init true false logOnError w)) in
    let d := CUPTI_CB_DOMAIN_RESOURCE in
    (fst (registerCallback d RESOURCE_CONTEXT_CREATED Fn_initProfilers x)
       = false ->
     t = [Call_registerCallback d RESOURCE_CONTEXT_CREATED Fn_initProfilers
            false])
    /\ (forall x1,
           registerCallback d RESOURCE_CONTEXT_CREATED Fn_initProfilers x
             = (true, x1) ->
           fst (registerCallback d RESOURCE_CONTEXT_DESTROYED Fn_stopProfiler x1)
             = false ->
           t = [Call_registerCallback d RESOURCE_CONTEXT_CREATED
                  Fn_initProfilers true;
                Call_registerCallback d RESOURCE_CONTEXT_DESTROYED
                  Fn_stopProfiler false])
    /\ (forall x1 x2,
           registerCallback d RESOURCE_CONTEXT_CREATED Fn_initProfilers x
             = (true, x1) ->
           registerCallback d RESOURCE_CONTEXT_DESTROYED Fn_stopProfiler x1
             = (true, x2) ->
           fst (enableCallback d RESOURCE_CONTEXT_CREATED x2) = false ->
           t = [Call_registerCallback d RESOURCE_CONTEXT_CREATED
                  Fn_initProfilers true;
                Call_registerCallback d RESOURCE_CONTEXT_DESTROYED
                  Fn_stopProfiler true;
                Call_enableCallback d RESOURCE_CONTEXT_CREATED false]).
Proof.
  intros l w E. cbv zeta. rewrite libkineto_init_registration_calls.
  exact (register_and_enable_calls
           (mkWorld (initialized w) (ext_at_probe w)) E).
Qed.

(** C7, as the code has it.  Both handlers take [initMutex]: each logs one
    line, locks, runs the rest of its body and unlocks as its last step,
    and neither locks or unlocks anywhere else.  In the context-created
    handler the lock therefore covers the activation decision and the start
    of event collection; in the context-destroyed handler it covers the
    stop request.  [libkineto_init], [InitializeInjection] and
    [suppressLibkinetoLogMessages] take no lock. *)
Theorem lock_discipline :
  forall d c (cbInfo : CUpti_ResourceData) (HAS_CUPTI cpuOnly logOnError : bool)
         (w : World X),
    (exists body,
        trace_of (initProfilers d c cbInfo w) =
        LOG (VERBOSE 0) "CUDA Context created" :: Lock_initMutex
        :: body ++ [Unlock_initMutex]
        /\ absent is_lock body /\ absent is_unlock body)
    /\ trace_of (stopProfiler d c cbInfo w) =
       [LOG INFO "CUDA Context destroyed"; Lock_initMutex;
        Call_EventProfilerController_stop (context cbInfo); Unlock_initMutex]
    /\ absent is_lock (trace_of (libkineto_init HAS_CUPTI cpuOnly logOnError w))
    /\ absent is_lock (trace_of (InitializeInjection HAS_CUPTI w))
    /\ absent is_lock (trace_of (suppressLibkinetoLogMessages w)).
Proof.
  intros d c cbInfo hc cpuOnly l w. split; [|split; [|split; [|split]]].
  - rewrite initProfilers_run.
    destruct (getenv _ (ext_at_getenv w)) as [v|]; cbn [trace_of snd].
    + exists (activation_trace w
              ++ [Call_getenv "KINETO_DISABLE_EVENT_PROFILER" (Some v);
                  LOG (VERBOSE 0) "Event profiler disabled via env var"]).
      split; [cbn; now rewrite <- app_assoc|].
      unfold activation_trace. destruct (initialized w); split; reflexivity.
    + exists (activation_trace w
              ++ [Call_getenv "KINETO_DISABLE_EVENT_PROFILER" None;
                  Call_configLoader (fst (configLoader (ext_at_getenv w)));
                  Call_initBaseConfig (fst (configLoader (ext_at_getenv w)));
                  Call_EventProfilerController_start (context cbInfo)
                    (fst (configLoader (ext_at_getenv w)))]).
      split; [cbn; now rewrite <- app_assoc|].
      unfold activation_trace. destruct (initialized w); split; reflexivity.
  - reflexivity.
  - apply libkineto_init_no_lock.
  - rewrite InitializeInjection_run. cbn [trace_of snd]. unfold absent. cbn [filter is_lock].
    apply libkineto_init_no_lock.
  - reflexivity.
Qed.

End InitClaims.

(** ** Traces account for the external state *)

Section ReplayFacts.

Context {X : Type} `{HX : Collaborators X}.

Lemma replay_all_app (s t : Trace) (x : X) :
  replay_all (s ++ t) x =
  match replay_all s x with
  | Some x' => replay_all t x'
  | None => None
  end.
Proof.
  revert x. induction s as [|c s IH]; intros x; [reflexivity|].
  cbn [app replay_all]. destruct (replay c x); [apply IH | reflexivity].
Qed.

Lemma same_answer_refl (a : option string) : same_answer a a = true.
Proof. destruct a; [apply String.eqb_refl | reflexivity]. Qed.

Lemma faithful_ret {A : Type} (a : A) : faithful (X := X) (ret a).
Proof. intros w. reflexivity. Qed.

Lemma faithful_bind {A B : Type} (m : M X A) (f : A -> M X B) :
  faithful m -> (forall a, faithful (f a)) -> faithful (bind m f).
Proof.
  intros Fm Ff w. rewrite bind_run. cbn [trace_of after fst snd].
  rewrite replay_all_app, Fm. apply Ff.
Qed.

Lemma faithful_emit (c : Call) :
  (forall x, replay c x = Some x) -> faithful (emit c).
Proof. intros R w. cbn. now rewrite R. Qed.

Lemma faithful_call (f : X -> X) (c : Call) :
  (forall x, replay c x = Some (f x)) -> faithful (call f c).
Proof. intros R w. cbn. now rewrite R. Qed.

Lemma faithful_ask {R : Type} (f : X -> R * X) (c : R -> Call) :
  (forall x, replay (c (fst (f x))) x = Some (snd (f x))) ->
  faithful (ask f c).
Proof.
  intros Q w. unfold ask, trace_of, after. specialize (Q (ext w)).
  destruct (f (ext w)) as [r x]. cbn in *. now rewrite Q.
Qed.

Lemma faithful_read_initialized : faithful (X := X) read_initialized.
Proof. intros w. reflexivity. Qed.

Lemma faithful_write_initialized (b : bool) :
  faithful (X := X) (write_initialized b).
Proof. intros w. reflexivity. Qed.

End ReplayFacts.

(** One step of a proof that a computation is faithful: by the shape of
    the computation. *)
Ltac faithful_step :=
  first
    [ apply faithful_ret
    | apply faithful_read_initialized
    | apply faithful_write_initialized
    | apply faithful_bind; [|intro]
    | apply faithful_emit; intro; reflexivity
    | apply faithful_call; intro; reflexivity
    | apply faithful_ask; intro; cbn [replay fst snd];
      rewrite ?Bool.eqb_reflx, ?Z.eqb_refl, ?same_answer_refl; reflexivity
    | match goal with
      | |- faithful (if ?b then _ else _) => destruct b
      | |- faithful (match ?e with Some _ => _ | None => _ end) => destruct e
      | |- faithful (let '(_, _) := ?p in _) => destruct p
      end ].

Section FaithfulCode.

Context {X : Type} `{HX : Collaborators X}.

Lemma initProfilers_faithful d c (cbInfo : CUpti_ResourceData) :
  faithful (initProfilers d c cbInfo).
Proof.
  unfold initProfilers, lock_guard_initMutex. repeat faithful_step.
Qed.

Lemma stopProfiler_faithful d c (cbInfo : CUpti_ResourceData) :
  faithful (stopProfiler d c cbInfo).
Proof.
  unfold stopProfiler, lock_guard_initMutex. repeat faithful_step.
Qed.

Lemma libkineto_init_faithful (HAS_CUPTI cpuOnly logOnError : bool) :
  faithful (libkineto_init HAS_CUPTI cpuOnly logOnError).
Proof.
  unfold libkineto_init, cupti_block, register_and_enable, log_cupti_failure,
    and_then.
  repeat faithful_step.
Qed.

Lemma InitializeInjection_faithful (HAS_CUPTI : bool) :
  faithful (InitializeInjection HAS_CUPTI).
Proof.
  unfold InitializeInjection.
  repeat first [apply libkineto_init_faithful | faithful_step].
Qed.

Lemma init_each_faithful (HAS_CUPTI : bool) (args : list (bool * bool)) :
  faithful (init_each HAS_CUPTI args).
Proof.
  induction args as [|[c l] rest IH]; cbn [init_each].
  - apply faithful_ret.
  - repeat first [apply libkineto_init_faithful | exact IH | faithful_step].
Qed.

(** One statement of a thread, replayed. *)
Lemma thread_step_replay (t t' : Thread) (s s' : Shared X) :
  thread_step t s = Some (t', s') ->
  exists delta,
    history s' = history s ++ delta
    /\ replay_all delta (ext (world s)) = Some (ext (world s')).
Proof.
  destruct t as [p i]. unfold thread_step. cbn [pc cbInfo_of].
  destruct p; cbn; try discriminate;
    try (destruct (initMutex s); [discriminate|]);
    try (destruct (negb (initialized (world s))));
    try (destruct (getenv _ (ext (world s))) eqn:G);
    try (destruct (configLoader (ext (world s))) eqn:L);
    intros T; injection T as <- <-; cbn;
    try (eexists [_]; split; [reflexivity|]; cbn;
         rewrite ?G, ?L; cbn; rewrite ?String.eqb_refl, ?Z.eqb_refl;
         reflexivity);
    exists []; rewrite app_nil_r; split; reflexivity.
Qed.

(** The common history accounts for the external state, whatever the
    interleaving. *)
Lemma pool_steps_replay (x : X) (c c' : Pool * Shared X) :
  pool_steps c c' ->
  replay_all (history (snd c)) x = Some (ext (world (snd c))) ->
  replay_all (history (snd c')) x = Some (ext (world (snd c'))).
Proof.
  induction 1 as [c|c1 c2 c3 S _ IH]; [trivial|].
  intros R. apply IH. destruct S as [b t r s t' s' T]. cbn [snd] in *.
  destruct (thread_step_replay t t' s s' T) as (delta & H & D).
  now rewrite H, replay_all_app, R.
Qed.

End FaithfulCode.

(** ** Handlers on several threads *)

Section ThreadFacts.

Context {X : Type} `{HX : Collaborators X}.

(** A thread running alone executes its handler as [initProfilers] and
    [stopProfiler] describe it. *)
Lemma solo_initProfilers d c (i : CUpti_ResourceData) (w : World X) (h : Trace) :
  solo 12 (mkThread Created_log i) (mkShared w false h) =
  (mkThread Created_returned i,
   mkShared (after (initProfilers d c i w)) false
     (h ++ trace_of (initProfilers d c i w))).
Proof.
  rewrite initProfilers_run. unfold ext_at_getenv, activation_trace.
  destruct w as [[|] x]; cbn.
  - destruct (getenv _ x) as [v|]; cbn;
      [|destruct (configLoader x) as [l x']; cbn];
      now rewrite <- ?app_assoc.
  - destruct (getenv _ (initProfilerIfRegistered x)) as [v|]; cbn;
      [|destruct (configLoader (initProfilerIfRegistered x)) as [l x']; cbn];
      now rewrite <- ?app_assoc.
Qed.

Lemma solo_stopProfiler d c (i : CUpti_ResourceData) (w : World X) (h : Trace) :
  solo 4 (mkThread Destroyed_log i) (mkShared w false h) =
  (mkThread Destroyed_returned i,
   mkShared (after (stopProfiler d c i w)) false
     (h ++ trace_of (stopProfiler d c i w))).
Proof. destruct w as [b x]. cbn. now rewrite <- ?app_assoc. Qed.

Lemma holders_app (p q : Pool) : holders (p ++ q) = holders p + holders q.
Proof. unfold holders. now rewrite filter_app, length_app. Qed.

Lemma holders_cons (t : Thread) (p : Pool) :
  holders (t :: p) = (if holds_lock (pc t) then 1 else 0) + holders p.
Proof. unfold holders. cbn. now destruct (holds_lock (pc t)). Qed.

Lemma pending_app (p q : Pool) : pending (p ++ q) = pending p + pending q.
Proof. unfold pending. now rewrite filter_app, length_app. Qed.

Lemma pending_cons (t : Thread) (p : Pool) :
  pending (t :: p) = (if at_set (pc t) then 1 else 0) + pending p.
Proof. unfold pending. cbn. now destruct (at_set (pc t)). Qed.

Lemma pending_le_holders (p : Pool) : pending p <= holders p.
Proof.
  induction p as [|t p IH]; [apply le_n|].
  rewrite pending_cons, holders_cons. destruct t as [[] i]; cbn; lia.
Qed.

(** Threads outside every guarded scope do not mind the flag being set. *)
Lemma flag_ok_outside (init : bool) (p : Pool) :
  holders p = 0 ->
  forallb (fun t => flag_ok init (pc t)) p = true ->
  forallb (fun t => flag_ok true (pc t)) p = true.
Proof.
  induction p as [|t p IH]; [reflexivity|].
  rewrite holders_cons. cbn [forallb]. intros H F.
  apply andb_prop in F. destruct F as [F1 F2].
  rewrite IH by (assumption || lia). rewrite andb_true_r.
  destruct t as [[] i]; cbn in *; try reflexivity; try lia; assumption.
Qed.


Lemma count_snoc (p : Call -> bool) (t : Trace) (c : Call) :
  count p (t ++ [c]) = count p t + (if p c then 1 else 0).
Proof. rewrite count_app. unfold count. cbn. now destruct (p c). Qed.

(** Every statement of every thread preserves the invariant. *)
Lemma consistent_step (c c' : Pool * Shared X) :
  consistent c -> pool_step c c' -> consistent c'.
Proof.
  intros (H & C & F) S. destruct S as [before t after_t s t' s' T].
  unfold consistent in *. cbn [fst snd] in *.
  rewrite holders_app, holders_cons in *.
  rewrite pending_app, pending_cons in *.
  rewrite forallb_app in *. cbn [forallb] in *.
  apply andb_prop in F. destruct F as [Fb F].
  apply andb_prop in F. destruct F as [Ft Fa].
  assert (Pb := pending_le_holders before).
  assert (Pa := pending_le_holders after_t).
  destruct s as [[init x] m h]. destruct t as [p i].
  unfold thread_step in T. cbn [pc cbInfo_of world initMutex history
                                  initialized ext] in *.
  destruct p; cbn [holds_lock at_set flag_ok] in *;
    try discriminate T;
    try (destruct m; [discriminate T|]);
    try (destruct init; cbn [negb] in T);
    try (destruct (getenv _ x));
    try (destruct (configLoader x) as [loader x']);
    injection T as <- <-;
    cbn [pc cbInfo_of world initMutex history initialized ext outside logged
         holds_lock at_set flag_ok negb];
    rewrite ?count_snoc; cbn [is_activation];
    try (rewrite Fb, Fa; cbn [andb]);
    try discriminate Ft;
    try (split; [lia | split; [lia | reflexivity]]);
    try (destruct m; (split; [lia | split; [lia | reflexivity]])).
  (* line 60: the flag is set; the other threads are outside their scopes *)
  destruct m; [|lia].
  rewrite (flag_ok_outside false before), (flag_ok_outside false after_t)
    by (assumption || lia).
  split; [lia | split; [lia | reflexivity]].
Qed.


Lemma consistent_steps (c c' : Pool * Shared X) :
  pool_steps c c' -> consistent c -> consistent c'.
Proof.
  induction 1 as [c|c1 c2 c3 S _ IH]; [trivial|].
  intros I. apply IH. exact (consistent_step c1 c2 I S).
Qed.

Lemma spawn_all_cons (ev : HostEvent X) (evs : list (HostEvent X)) :
  spawn_all (ev :: evs) = spawn ev ++ spawn_all evs.
Proof. reflexivity. Qed.

(** At attach no thread holds the mutex and nothing has been activated. *)
Lemma consistent_attach (evs : list (HostEvent X)) (x : X) :
  consistent (spawn_all evs, at_attach x).
Proof.
  unfold consistent. cbn [fst snd at_attach initMutex history world initialized].
  induction evs as [|ev evs (H & C & F)]; [repeat split|].
  rewrite spawn_all_cons, holders_app, pending_app, forallb_app.
  cbn in C |- *. rewrite H, <- C, F.
  destruct ev; repeat split.
Qed.

Lemma created_threads_spawn_all (evs : list (HostEvent X)) :
  created_threads (spawn_all evs) = created_count evs.
Proof.
  unfold created_threads, created_count.
  induction evs as [|ev evs IH]; [reflexivity|].
  rewrite spawn_all_cons, filter_app, length_app, IH.
  destruct ev; reflexivity.
Qed.

(** A thread that cannot move has returned, or waits for the mutex. *)
Lemma blocked_thread (t : Thread) (s : Shared X) :
  thread_step t s = None ->
  returned (pc t) = true \/ (initMutex s = true /\ holds_lock (pc t) = false).
Proof.
  destruct t as [p i]. unfold thread_step. cbn [pc cbInfo_of].
  destruct p; cbn; try discriminate; auto.
  - now destruct (initMutex s); [auto|].
  - now destruct (negb (initialized (world s))).
  - now destruct (configLoader (ext (world s))).
  - now destruct (initMutex s); [auto|].
Qed.

Lemma forallb_false_split {A : Type} (f : A -> bool) (l : list A) :
  forallb f l = false ->
  exists before a after_a, l = before ++ a :: after_a /\ f a = false.
Proof.
  induction l as [|a l IH]; [discriminate|]. cbn [forallb].
  destruct (f a) eqn:E.
  - intros F. destruct (IH F) as (b & a' & r & -> & Fa).
    now exists (a :: b), a', r.
  - intros _. now exists [], a, l.
Qed.

Lemma holder_split (p : Pool) :
  holders p <> 0 ->
  exists before t after_t,
    p = before ++ t :: after_t /\ holds_lock (pc t) = true.
Proof.
  induction p as [|t p IH]; [intros N; now contradict N|].
  rewrite holders_cons. destruct (holds_lock (pc t)) eqn:E.
  - intros _. now exists [], t, p.
  - intros N. destruct (IH N) as (b & t' & r & -> & L).
    now exists (t :: b), t', r.
Qed.

(** No deadlock: while a thread has not returned, some thread can move. *)
Lemma pool_progress (p : Pool) (s : Shared X) :
  consistent (p, s) -> all_returned p = false ->
  exists c', pool_step (p, s) c'.
Proof.
  intros (H & _ & _) R. cbn [fst snd] in H.
  assert (G : exists before t after_t,
             p = before ++ t :: after_t /\ thread_step t s <> None).
  { destruct (initMutex s) eqn:M.
    - destruct (holder_split p) as (b & t & r & -> & L); [now rewrite H|].
      exists b, t, r. split; [reflexivity|]. intros B.
      destruct (blocked_thread t s B) as [Rt|[_ Lt]]; [|congruence].
      destruct t as [[] i]; discriminate.
    - destruct (forallb_false_split _ _ R) as (b & t & r & -> & Rt).
      exists b, t, r. split; [reflexivity|]. intros B.
      destruct (blocked_thread t s B) as [Rt'|[M' _]]; congruence. }
  destruct G as (b & t & r & -> & N).
  destruct (thread_step t s) as [[t' s']|] eqn:T; [|now contradict N].
  exists (b ++ t' :: r, s'). constructor. exact T.
Qed.

(** Every statement brings its thread closer to its return. *)
Lemma thread_step_decreases (t t' : Thread) (s s' : Shared X) :
  thread_step t s = Some (t', s') ->
  statements_left (pc t') < statements_left (pc t).
Proof.
  destruct t as [p i]. unfold thread_step. cbn [pc cbInfo_of].
  destruct p; cbn; try discriminate;
    try (destruct (initMutex s); [discriminate|]);
    try (destruct (negb (initialized (world s))));
    try (destruct (getenv _ (ext (world s))));
    try (destruct (configLoader (ext (world s))));
    intros T; injection T as <- _; cbn; lia.
Qed.

Lemma work_left_split (before : Pool) (t : Thread) (after_t : Pool) :
  work_left (before ++ t :: after_t) =
  work_left before + statements_left (pc t) + work_left after_t.
Proof.
  unfold work_left. rewrite map_app, list_sum_app. cbn [map list_sum].
  apply Nat.add_assoc.
Qed.

Lemma pool_step_decreases (c c' : Pool * Shared X) :
  pool_step c c' -> work_left (fst c') < work_left (fst c).
Proof.
  intros [b t r s t' s' T]. cbn [fst]. rewrite !work_left_split.
  pose proof (thread_step_decreases t t' s s' T). lia.
Qed.

(** Every handler returns: from a consistent state the threads can all be
    run to their return. *)
Lemma pool_completes (c : Pool * Shared X) :
  consistent c ->
  exists c', pool_steps c c' /\ all_returned (fst c') = true.
Proof.
  remember (work_left (fst c)) as n eqn:W. revert c W.
  induction n as [n IH] using lt_wf_ind. intros [p s] W I.
  destruct (all_returned p) eqn:R.
  - exists (p, s). split; [constructor | exact R].
  - destruct (pool_progress p s I R) as [c1 S].
    pose proof (pool_step_decreases _ _ S) as D.
    destruct (IH (work_left (fst c1))) with (c := c1) as (c2 & S2 & R2);
      [subst n; exact D | reflexivity | exact (consistent_step _ _ I S) |].
    exists c2. split; [econstructor; eassumption | exact R2].
Qed.

Lemma thread_step_kind (t t' : Thread) (s s' : Shared X) :
  thread_step t s = Some (t', s') ->
  is_created_thread (pc t') = is_created_thread (pc t).
Proof.
  destruct t as [p i]. unfold thread_step. cbn [pc cbInfo_of].
  destruct p; cbn; try discriminate;
    try (destruct (initMutex s); [discriminate|]);
    try (destruct (negb (initialized (world s))));
    try (destruct (getenv _ (ext (world s))));
    try (destruct (configLoader (ext (world s))));
    intros T; injection T as <- _; reflexivity.
Qed.

Lemma pool_steps_created_threads (c c' : Pool * Shared X) :
  pool_steps c c' -> created_threads (fst c') = created_threads (fst c).
Proof.
  induction 1 as [c|c1 c2 c3 S _ IH]; [reflexivity|].
  rewrite IH. destruct S as [b t r s t' s' T]. cbn [fst].
  unfold created_threads. rewrite !filter_app, !length_app. cbn [filter].
  rewrite (thread_step_kind t t' s s' T).
  now destruct (is_created_thread (pc t)).
Qed.

(** The flag is only ever set. *)
Lemma thread_step_flag (t t' : Thread) (s s' : Shared X) :
  thread_step t s = Some (t', s') ->
  initialized (world s) = true -> initialized (world s') = true.
Proof.
  destruct t as [p i]. unfold thread_step. cbn [pc cbInfo_of].
  destruct p; cbn; try discriminate;
    try (destruct (initMutex s); [discriminate|]);
    try (destruct (negb (initialized (world s))));
    try (destruct (getenv _ (ext (world s))));
    try (destruct (configLoader (ext (world s))));
    intros T; injection T as _ <-; cbn; auto.
Qed.

Lemma pool_steps_flag (c c' : Pool * Shared X) :
  pool_steps c c' ->
  initialized (world (snd c)) = true -> initialized (world (snd c')) = true.
Proof.
  induction 1 as [c|c1 c2 c3 S _ IH]; [trivial|].
  intros F. apply IH. destruct S as [b t r s t' s' T]. cbn [snd] in *.
  exact (thread_step_flag t t' s s' T F).
Qed.

Lemma all_returned_quiet (p : Pool) :
  all_returned p = true -> holders p = 0 /\ pending p = 0.
Proof.
  induction p as [|t p IH]; [now split|].
  unfold all_returned. cbn [forallb]. intros R.
  apply andb_prop in R. destruct R as [Rt R].
  destruct (IH R) as [H P]. rewrite holders_cons, pending_cons, H, P.
  destruct t as [[] i]; try discriminate Rt; now split.
Qed.

Lemma created_returned_exists (p : Pool) :
  all_returned p = true -> created_threads p <> 0 ->
  exists t, In t p /\ pc t = Created_returned.
Proof.
  induction p as [|t p IH]; [intros _ N; now contradict N|].
  unfold all_returned, created_threads. cbn [forallb filter]. intros R N.
  apply andb_prop in R. destruct R as [Rt R].
  destruct t as [[] i]; try discriminate Rt.
  - exists (mkThread Created_returned i). split; [now left | reflexivity].
  - destruct (IH R N) as (t & T & P). exists t. split; [now right | exact P].
Qed.

(** Every schedule is an interleaving. *)
Lemma schedule_steps (turns : list nat) (c : Pool * Shared X) :
  pool_steps c (schedule turns c).
Proof.
  revert c. induction turns as [|i rest IH]; intros [p s]; [constructor|].
  cbn [schedule fst snd].
  destruct (nth_error p i) as [t|] eqn:N; [|apply IH].
  destruct (thread_step t s) as [[t' s']|] eqn:T; [|apply IH].
  apply pool_steps_step with (c2 := (firstn i p ++ t' :: skipn (S i) p, s'));
    [|apply IH].
  destruct (nth_error_split p i N) as (b & r & E & L).
  subst p i. rewrite firstn_app, firstn_all, Nat.sub_diag, app_nil_r.
  replace (skipn (S (List.length b)) (b ++ t :: r)) with r.
  - now constructor.
  - rewrite skipn_app, skipn_all2 by apply Nat.le_succ_diag_r.
    replace (S (List.length b) - List.length b) with 1 by lia.
    reflexivity.
Qed.

(** With the flag set, no thread is between the call and the assignment. *)
Lemma pending_when_set (p : Pool) :
  forallb (fun t => flag_ok true (pc t)) p = true -> pending p = 0.
Proof.
  induction p as [|t p IH]; [reflexivity|]. cbn [forallb]. intros F.
  apply andb_prop in F. destruct F as [Ft F].
  rewrite pending_cons, (IH F).
  destruct t as [[] i]; try reflexivity; discriminate Ft.
Qed.

(** X14.  One activation, whatever the interleaving.  The runtime fires the
    callbacks of [evs], each on its own thread, and the threads have run
    for a while.  Then [initProfilerIfRegistered] has been called at most
    once; every context-created handler that has returned left the flag
    set; the flag stays set in whatever follows; once all handlers have
    returned, if one of them was a context-created handler, the call has
    been made exactly once, the flag is set and the mutex is free; and from
    where the threads are they can all be run to their return.  The history
    accounts for the external state: replayed on the state at attach it
    gives the state the threads have reached, so the collaborators have been
    called as recorded and not otherwise. *)
Theorem interleaved_activation_once :
  forall (evs : list (HostEvent X)) (x : X) (p : Pool) (s : Shared X),
    pool_steps (spawn_all evs, at_attach x) (p, s) ->
    count is_activation (history s) <= 1
    /\ (forall t, In t p -> pc t = Created_returned ->
           initialized (world s) = true)
    /\ (forall p' s', pool_steps (p, s) (p', s') ->
           initialized (world s) = true -> initialized (world s') = true)
    /\ (all_returned p = true -> 1 <= created_count evs ->
        count is_activation (history s) = 1
        /\ initialized (world s) = true
        /\ initMutex s = false)
    /\ (exists p' s', pool_steps (p, s) (p', s') /\ all_returned p' = true)
    /\ replay_all (history s) x = Some (ext (world s)).
Proof.
  intros evs x p s S.
  pose proof (consistent_steps _ _ S (consistent_attach evs x)) as I.
  pose proof I as (H & C & F). cbn [fst snd] in H, C, F.
  assert (Ret : forall t, In t p -> pc t = Created_returned ->
                          initialized (world s) = true).
  { intros t T P. rewrite forallb_forall in F. specialize (F t T).
    now rewrite P in F. }
  split; [|split; [exact Ret|split; [|split; [|split]]]].
  - pose proof (pending_le_holders p) as L.
    destruct (initialized (world s)) eqn:Init.
    + (* a thread about to set the flag would have read it as false *)
      rewrite (pending_when_set p F) in C. lia.
    + destruct (initMutex s); lia.
  - intros p' s' S'. exact (pool_steps_flag _ _ S').
  - intros R N. destruct (all_returned_quiet p R) as [H0 P0].
    pose proof (pool_steps_created_threads _ _ S) as K. cbn [fst] in K.
    rewrite created_threads_spawn_all in K.
    destruct (created_returned_exists p R) as (t & T & P); [lia|].
    pose proof (Ret t T P) as Init. rewrite Init, P0 in C.
    split; [exact C|]. split; [exact Init|].
    rewrite H0 in H. now destruct (initMutex s).
  - destruct (pool_completes (p, s) I) as ([p' s'] & S' & R').
    now exists p', s'.
  - exact (pool_steps_replay x _ _ S eq_refl).
Qed.

End ThreadFacts.

(** ** The model at work on a concrete process *)

(** A reachable backend: both callbacks registered and enabled. *)
Example fake_init_gpu :
  libkineto_init true false true
    (Fake.fresh (Fake.process true (Fake.all true) (Fake.all true) None))
  = (true,
     mkWorld false
       (Fake.set_profiler (mkActivityProfilerProxy false 4096%Z)
          (Fake.process true (Fake.all true) (Fake.all true) None)),
     [Call_singleton; Call_initSuccess true;
      Call_registerCallback CUPTI_CB_DOMAIN_RESOURCE RESOURCE_CONTEXT_CREATED
        Fn_initProfilers true;
      Call_registerCallback CUPTI_CB_DOMAIN_RESOURCE RESOURCE_CONTEXT_DESTROYED
        Fn_stopProfiler true;
      Call_enableCallback CUPTI_CB_DOMAIN_RESOURCE RESOURCE_CONTEXT_CREATED true;
      Call_enableCallback CUPTI_CB_DOMAIN_RESOURCE RESOURCE_CONTEXT_DESTROYED true;
      Call_initSuccess true;
      Call_configLoader 4096%Z;
      Call_registerProfiler (mkActivityProfilerProxy false 4096%Z)]).
Proof. reflexivity. Qed.

(** No GPU: the library falls back, with and without diagnostics. *)
Example fake_init_no_gpu_quiet :
  libkineto_init true false false (Fake.fresh Fake.no_gpu)
  = (false,
     mkWorld false
       (Fake.set_profiler (mkActivityProfilerProxy true 4096%Z) Fake.no_gpu),
     [Call_singleton; Call_initSuccess false; Call_initSuccess false;
      Call_configLoader 4096%Z;
      Call_registerProfiler (mkActivityProfilerProxy true 4096%Z)]).
Proof. reflexivity. Qed.

Example fake_init_no_gpu_loud :
  trace_of (libkineto_init true false true (Fake.fresh Fake.no_gpu))
  = [Call_singleton; Call_initSuccess false; Call_initSuccess false]
    ++ diagnostics 15%Z ++ cpu_only_registration 4096%Z.
Proof. reflexivity. Qed.

(** Built without [HAS_CUPTI], [cpuOnly = false] is passed on as it is. *)
Example fake_init_without_cupti :
  libkineto_init false false true (Fake.fresh Fake.no_gpu)
  = (true,
     mkWorld false
       (Fake.set_profiler (mkActivityProfilerProxy false 4096%Z) Fake.no_gpu),
     [Call_configLoader 4096%Z;
      Call_registerProfiler (mkActivityProfilerProxy false 4096%Z)]).
Proof. reflexivity. Qed.

(** The last enablement failing is a fallback too, after all four calls. *)
Example fake_init_destroyed_not_enabled :
  libkineto_init true false false (Fake.fresh Fake.destroyed_not_enabled)
  = (false,
     mkWorld false
       (Fake.set_profiler (mkActivityProfilerProxy true 4096%Z)
          Fake.destroyed_not_enabled),
     [Call_singleton; Call_initSuccess true;
      Call_registerCallback CUPTI_CB_DOMAIN_RESOURCE RESOURCE_CONTEXT_CREATED
        Fn_initProfilers true;
      Call_registerCallback CUPTI_CB_DOMAIN_RESOURCE RESOURCE_CONTEXT_DESTROYED
        Fn_stopProfiler true;
      Call_enableCallback CUPTI_CB_DOMAIN_RESOURCE RESOURCE_CONTEXT_CREATED true;
      Call_enableCallback CUPTI_CB_DOMAIN_RESOURCE RESOURCE_CONTEXT_DESTROYED
        false;
      Call_initSuccess true;
      Call_configLoader 4096%Z;
      Call_registerProfiler (mkActivityProfilerProxy true 4096%Z)]).
Proof. reflexivity. Qed.

(** Contexts A and B are created, then destroyed: one activation, a start
    and a stop for each handle, in order. *)
Example fake_two_contexts :
  filter is_collaborator_call
    (trace_of (run Fake.two_contexts (Fake.fresh Fake.gpu)))
  = [Call_initProfilerIfRegistered;
     Call_getenv "KINETO_DISABLE_EVENT_PROFILER" None;
     Call_configLoader 4096%Z; Call_initBaseConfig 4096%Z;
     Call_EventProfilerController_start 100%Z 4096%Z;
     Call_getenv "KINETO_DISABLE_EVENT_PROFILER" None;
     Call_configLoader 4096%Z; Call_initBaseConfig 4096%Z;
     Call_EventProfilerController_start 200%Z 4096%Z;
     Call_EventProfilerController_stop 100%Z;
     Call_EventProfilerController_stop 200%Z]
  /\ Fake.collecting (ext (after (run Fake.two_contexts (Fake.fresh Fake.gpu))))
     = [].
Proof. split; reflexivity. Qed.

(** With the toggle set (to the empty string, even) nothing is started. *)
Example fake_created_toggle_set :
  trace_of
    (initProfilers CUPTI_CB_DOMAIN_RESOURCE 1%Z Fake.ctxA
       (Fake.fresh (Fake.set_env (Some "") Fake.gpu)))
  = [LOG (VERBOSE 0) "CUDA Context created"; Lock_initMutex;
     Call_initProfilerIfRegistered;
     LOG (VERBOSE 0) "libkineto profilers activated";
     Call_getenv "KINETO_DISABLE_EVENT_PROFILER" (Some "");
     LOG (VERBOSE 0) "Event profiler disabled via env var";
     Unlock_initMutex].
Proof. reflexivity. Qed.

(** A context destroyed that was never created. *)
Example fake_destroyed_without_created :
  stopProfiler CUPTI_CB_DOMAIN_RESOURCE 2%Z Fake.ctxB (Fake.fresh Fake.gpu)
  = (tt, Fake.fresh Fake.gpu,
     [LOG INFO "CUDA Context destroyed"; Lock_initMutex;
      Call_EventProfilerController_stop 200%Z; Unlock_initMutex]).
Proof. reflexivity. Qed.

(** ** Instances of the conditional claims *)

Lemma activation_exactly_once_witness :
  count is_activation
    (trace_of (run Fake.two_contexts (Fake.fresh Schedules.gpu_registered)))
  = 1
  /\ Fake.activations
       (ext (after (run Fake.two_contexts
                      (Fake.fresh Schedules.gpu_registered)))) = 1.
Proof.
  assert (N : 1 <= created_count Fake.two_contexts)
    by (cbn; apply le_S, le_n).
  destruct (activation_exactly_once Fake.two_contexts
              (Fake.fresh Schedules.gpu_registered) eq_refl N)
    as (C & _ & _ & _ & E & _).
  split; [exact C|].
  destruct (E [] CUPTI_CB_DOMAIN_RESOURCE 1%Z Fake.ctxA
              (tl Fake.two_contexts) eq_refl eq_refl) as (_ & _ & R).
  rewrite R. reflexivity.
Defined.

Lemma backend_unavailable_falls_back_witness :
  result (libkineto_init true false true (Fake.fresh Fake.no_gpu)) = false
  /\ absent is_register_or_enable
       (trace_of (libkineto_init true false true (Fake.fresh Fake.no_gpu))).
Proof.
  pose proof (backend_unavailable_falls_back true (Fake.fresh Fake.no_gpu)
                eq_refl) as H.
  cbv zeta in H. split; [exact (proj1 H) | exact (proj1 (proj2 H))].
Defined.

Lemma registration_failure_falls_back_witness :
  result (libkineto_init true false false
            (Fake.fresh Fake.created_unregistrable)) = false
  /\ result (libkineto_init true false false
               (Fake.fresh Fake.destroyed_unregistrable)) = false
  /\ result (libkineto_init true false false
               (Fake.fresh Fake.created_not_enabled)) = false
  /\ result (libkineto_init true false false
               (Fake.fresh Fake.destroyed_not_enabled)) = false.
Proof.
  split; [|split; [|split]].
  - refine (proj1 (registration_failure_falls_back false
                     (Fake.fresh Fake.created_unregistrable) eq_refl _)).
    apply register_created_fails; reflexivity.
  - refine (proj1 (registration_failure_falls_back false
                     (Fake.fresh Fake.destroyed_unregistrable) eq_refl _)).
    eapply register_destroyed_fails; reflexivity.
  - refine (proj1 (registration_failure_falls_back false
                     (Fake.fresh Fake.created_not_enabled) eq_refl _)).
    eapply enable_created_fails; reflexivity.
  - refine (proj1 (registration_failure_falls_back false
                     (Fake.fresh Fake.destroyed_not_enabled) eq_refl _)).
    eapply enable_destroyed_fails; reflexivity.
Defined.

Lemma diagnostics_only_when_asked_witness :
  exists before,
    trace_of (libkineto_init true false true (Fake.fresh Fake.no_gpu)) =
      before ++ diagnostics 15%Z ++ cpu_only_registration 4096%Z
    /\ trace_of (libkineto_init true false false (Fake.fresh Fake.no_gpu)) =
       before ++ cpu_only_registration 4096%Z.
Proof.
  destruct (diagnostics_only_when_asked true (Fake.fresh Fake.no_gpu))
    as (before & _ & _ & T1 & T0 & _); [reflexivity|].
  exists before. split; assumption.
Defined.

Lemma registration_short_circuits_witness :
  filter is_register_or_enable
    (trace_of (libkineto_init true false true
                 (Fake.fresh Fake.created_unregistrable)))
  = [Call_registerCallback CUPTI_CB_DOMAIN_RESOURCE RESOURCE_CONTEXT_CREATED
       Fn_initProfilers false]
  /\ filter is_enable
       (trace_of (libkineto_init true false true
                    (Fake.fresh Fake.destroyed_unregistrable)))
     = []
  /\ filter is_register_or_enable
       (trace_of (libkineto_init true false true
                    (Fake.fresh Fake.created_not_enabled)))
     = [Call_registerCallback CUPTI_CB_DOMAIN_RESOURCE RESOURCE_CONTEXT_CREATED
          Fn_initProfilers true;
        Call_registerCallback CUPTI_CB_DOMAIN_RESOURCE
          RESOURCE_CONTEXT_DESTROYED Fn_stopProfiler true;
        Call_enableCallback CUPTI_CB_DOMAIN_RESOURCE RESOURCE_CONTEXT_CREATED
          false].
Proof.
  split; [|split].
  - exact (proj1 (registration_short_circuits true
                    (Fake.fresh Fake.created_unregistrable) eq_refl) eq_refl).
  - pose proof (proj1 (proj2 (registration_short_circuits true
                    (Fake.fresh Fake.destroyed_unregistrable) eq_refl))
                  _ eq_refl eq_refl) as H.
    cbv zeta in H.
    assert (E : forall t, filter is_enable t =
                          filter is_enable (filter is_register_or_enable t)).
    { induction t as [|c t IH]; [reflexivity|]. destruct c; cbn; now rewrite ?IH. }
    rewrite E, H. reflexivity.
  - exact (proj2 (proj2 (registration_short_circuits true
                    (Fake.fresh Fake.created_not_enabled) eq_refl))
             _ _ eq_refl eq_refl eq_refl).
Defined.

(** ** The context-destroyed handler does take the lock *)

(** Against C7 as the specification words it: [stopProfiler] acquires
    [initMutex] before it forwards the stop request. *)
Lemma destroyed_handler_takes_lock :
  ~ absent is_lock
      (trace_of (stopProfiler CUPTI_CB_DOMAIN_RESOURCE 2%Z Fake.ctxA
                   (Fake.fresh Fake.gpu))).
Proof. unfold absent. cbn. discriminate. Qed.

(** ** Two threads on a concrete process *)

(** B logs first and then waits while A activates: one activation, A
    started before B. *)
Example fake_b_waits_for_a :
  history (snd (schedule Fake.b_waits_for_a
                  (spawn_all Fake.two_created, at_attach Fake.gpu)))
  = [LOG (VERBOSE 0) "CUDA Context created";
     LOG (VERBOSE 0) "CUDA Context created"; Lock_initMutex;
     Call_initProfilerIfRegistered;
     LOG (VERBOSE 0) "libkineto profilers activated";
     Call_getenv "KINETO_DISABLE_EVENT_PROFILER" None;
     Call_configLoader 4096%Z; Call_initBaseConfig 4096%Z;
     Call_EventProfilerController_start 100%Z 4096%Z;
     Unlock_initMutex; Lock_initMutex;
     Call_getenv "KINETO_DISABLE_EVENT_PROFILER" None;
     Call_configLoader 4096%Z; Call_initBaseConfig 4096%Z;
     Call_EventProfilerController_start 200%Z 4096%Z;
     Unlock_initMutex]
  /\ all_returned (fst (schedule Fake.b_waits_for_a
                          (spawn_all Fake.two_created, at_attach Fake.gpu)))
     = true.
Proof. split; reflexivity. Qed.

Lemma interleaved_activation_once_witness :
  count is_activation
    (history (snd (schedule Fake.b_waits_for_a
                     (spawn_all Fake.two_created, at_attach Fake.gpu)))) <= 1.
Proof.
  refine (proj1 (interleaved_activation_once Fake.two_created Fake.gpu
                   (fst (schedule Fake.b_waits_for_a
                           (spawn_all Fake.two_created, at_attach Fake.gpu)))
                   (snd (schedule Fake.b_waits_for_a
                           (spawn_all Fake.two_created, at_attach Fake.gpu)))
                   _)).
  rewrite <- surjective_pairing. apply schedule_steps.
Defined.

(** * Further properties *)

(** ** Library initialisation, all paths *)

Section InitPaths.

Context {X : Type} `{HX : Collaborators X}.

(** The registration phase when it succeeds. *)
Lemma register_and_enable_succeeds (w : World X) :
  result (register_and_enable w) = true ->
  exists x0 x1 x2 x3 x4,
    initSuccess (ext w) = (true, x0)
    /\ registerCallback CUPTI_CB_DOMAIN_RESOURCE RESOURCE_CONTEXT_CREATED
         Fn_initProfilers x0 = (true, x1)
    /\ registerCallback CUPTI_CB_DOMAIN_RESOURCE RESOURCE_CONTEXT_DESTROYED
         Fn_stopProfiler x1 = (true, x2)
    /\ enableCallback CUPTI_CB_DOMAIN_RESOURCE RESOURCE_CONTEXT_CREATED x2
       = (true, x3)
    /\ enableCallback CUPTI_CB_DOMAIN_RESOURCE RESOURCE_CONTEXT_DESTROYED x3
       = (true, x4)
    /\ register_and_enable w =
       (true, mkWorld (initialized w) x4,
        Call_initSuccess true
        :: attempts registration_plan [true; true; true; true]).
Proof.
  unfold register_and_enable. exec; intros R; try discriminate R.
  subst. do 5 eexists. repeat split; eassumption.
Qed.


Lemma register_and_enable_chain (w : World X) (x0 x1 x2 x3 x4 : X) :
  initSuccess (ext w) = (true, x0) ->
  registerCallback CUPTI_CB_DOMAIN_RESOURCE RESOURCE_CONTEXT_CREATED
    Fn_initProfilers x0 = (true, x1) ->
  registerCallback CUPTI_CB_DOMAIN_RESOURCE RESOURCE_CONTEXT_DESTROYED
    Fn_stopProfiler x1 = (true, x2) ->
  enableCallback CUPTI_CB_DOMAIN_RESOURCE RESOURCE_CONTEXT_CREATED x2
    = (true, x3) ->
  enableCallback CUPTI_CB_DOMAIN_RESOURCE RESOURCE_CONTEXT_DESTROYED x3
    = (true, x4) ->
  register_and_enable w =
  (true, mkWorld (initialized w) x4,
   Call_initSuccess true :: attempts registration_plan [true; true; true; true]).
Proof.
  intros I R1 R2 E1 E2. unfold register_and_enable. unfold_m.
  rewrite I. cbn [initialized ext]. rewrite R1. cbn [initialized ext].
  rewrite R2. cbn [initialized ext]. rewrite E1. cbn [initialized ext].
  rewrite E2. reflexivity.
Qed.

(** X1.  Under [HAS_CUPTI], [libkineto_init(false, logOnError)] returns true
    exactly when both [initSuccess] probes, both registrations and both
    enablements answer true.  Its run is then fixed: the seven gateway
    calls, the fetch of the loader and the registration of a profiler built
    with [cpuOnly = false]; nothing is logged, whatever [logOnError]. *)
Theorem gpu_path_established :
  forall (logOnError : bool) (w : World X),
    let r := libkineto_init true false logOnError w in
    (result r = true ->
     exists x',
       gateway_succeeds (ext_at_probe w) x'
       /\ r = (true,
               mkWorld (initialized w)
                 (registerProfiler
                    (mkActivityProfilerProxy false (fst (configLoader x')))
                    (snd (configLoader x'))),
               gpu_path_trace (fst (configLoader x'))))
    /\ (forall x', gateway_succeeds (ext_at_probe w) x' -> result r = true).
Proof.
  intros l w. cbv zeta. split.
  - intros R. pose proof R as R'. rewrite libkineto_init_result in R'.
    cbv zeta in R'. apply andb_prop in R'. destruct R' as [P S].
    destruct (register_and_enable_succeeds _ S)
      as (x0 & x1 & x2 & x3 & x4 & I & R1 & R2 & E1 & E2 & RE).
    cbn [ext] in I.
    assert (G : fst (initSuccess (ext (after (register_and_enable
                  (mkWorld (initialized w) (ext_at_probe w))))))
                && result (register_and_enable
                             (mkWorld (initialized w) (ext_at_probe w))) = true)
      by now rewrite P, S.
    rewrite (libkineto_init_gpu l w G). rewrite RE in P |- *.
    cbn [after result trace_of fst snd ext initialized] in P |- *.
    exists (snd (initSuccess x4)). split; [|now rewrite P].
    apply (gateway_all_true _ _ x0 x1 x2 x3 x4); try assumption.
    destruct (initSuccess x4) as [b y]. cbn in P |- *. now subst b.
  - intros x' [x0 x1 x2 x3 x4 I R1 R2 E1 E2 P].
    rewrite libkineto_init_result. cbv zeta.
    rewrite (register_and_enable_chain
               (mkWorld (initialized w) (ext_at_probe w)) x0 x1 x2 x3 x4)
      by assumption.
    cbn [after result fst snd ext]. now rewrite P.
Qed.


(** Every run of [libkineto_init], in one shape: the gateway phase (empty
    unless [HAS_CUPTI] and not [cpuOnly]), the diagnostics on a fallback
    with [logOnError], and the registration. *)
Lemma libkineto_init_shape (HAS_CUPTI cpuOnly logOnError : bool) (w : World X) :
  let res := result (libkineto_init HAS_CUPTI cpuOnly logOnError w) in
  exists gateway probe status loader x,
    libkineto_init HAS_CUPTI cpuOnly logOnError w =
    (res,
     mkWorld (initialized w)
       (registerProfiler
          (mkActivityProfilerProxy (cpuOnly || negb res) loader) x),
     gateway
     ++ (if negb res && logOnError then diagnostics status else [])
     ++ [Call_configLoader loader;
         Call_registerProfiler
           (mkActivityProfilerProxy (cpuOnly || negb res) loader)])
    /\ gateway =
       (if HAS_CUPTI && negb cpuOnly
        then Call_singleton
             :: trace_of (register_and_enable
                            (mkWorld (initialized w) (ext_at_probe w)))
             ++ [Call_initSuccess probe]
        else [])
    /\ (HAS_CUPTI && negb cpuOnly = false -> res = true).
Proof.
  cbv zeta.
  destruct (HAS_CUPTI && negb cpuOnly) eqn:G.
  - apply andb_prop in G. destruct G as [-> C].
    apply negb_true_iff in C. subst cpuOnly.
    destruct (result (libkineto_init true false logOnError w)) eqn:R.
    + pose proof R as R'. rewrite libkineto_init_result in R'. cbv zeta in R'.
      rewrite (libkineto_init_gpu logOnError w R').
      eexists _, (fst (initSuccess _)), 0%Z, _, _.
      split; [|split; [reflexivity | discriminate]].
      cbn [negb andb orb app]. reflexivity.
    + pose proof R as R'. rewrite libkineto_init_result in R'. cbv zeta in R'.
      rewrite (libkineto_init_fallback logOnError w R').
      eexists _, (fst (initSuccess _)), _, _, _.
      split; [|split; [reflexivity | discriminate]].
      unfold fallback_tail, cpu_only_registration.
      cbn [negb andb orb]. reflexivity.
  - intros. rewrite libkineto_init_run. cbv zeta.
    assert (E : (if HAS_CUPTI then cupti_block cpuOnly logOnError
                 else ret (true, cpuOnly)) w = (true, cpuOnly, w, [])).
    { destruct HAS_CUPTI; [|reflexivity]. cbn in G.
      apply negb_false_iff in G. now subst cpuOnly. }
    rewrite E. cbn [result after trace_of fst snd negb andb orb app].
    rewrite orb_false_r.
    exists [], true, 0%Z, (fst (configLoader (ext w))),
      (snd (configLoader (ext w))).
    split; [reflexivity | split; reflexivity].
Qed.

Lemma register_and_enable_statements (w : World X) :
  forallb is_init_statement (trace_of (register_and_enable w)) = true.
Proof. unfold register_and_enable. exec; reflexivity. Qed.

(** The registration phase follows the plan and stops at the first answer
    that is false. *)
Lemma register_and_enable_attempts (w : World X) :
  exists answers,
    filter is_register_or_enable (trace_of (register_and_enable w)) =
      attempts registration_plan answers
    /\ stops_at_first_failure answers = true.
Proof.
  unfold register_and_enable. exec.
  - exists [true; true; true; b3]. now split.
  - exists [true; true; false]. now split.
  - exists [true; false]. now split.
  - exists [false]. now split.
  - exists []. now split.
Qed.

(** X2.  Every call of [libkineto_init], in either build and for all
    arguments and gateway answers, registers exactly one profiler, as its last
    statement, after fetching the loader.  The profiler is built CPU-only
    exactly when the caller asked for it or the call returns false; and the
    call can return false only with [HAS_CUPTI] and [cpuOnly = false]. *)
Theorem one_profiler_per_call :
  forall (HAS_CUPTI cpuOnly logOnError : bool) (w : World X),
    let r := libkineto_init HAS_CUPTI cpuOnly logOnError w in
    exists before loader x,
      trace_of r =
        before ++ [Call_configLoader loader;
                   Call_registerProfiler
                     (mkActivityProfilerProxy (cpuOnly || negb (result r))
                        loader)]
      /\ absent is_registerProfiler before
      /\ ext (after r) =
         registerProfiler
           (mkActivityProfilerProxy (cpuOnly || negb (result r)) loader) x
      /\ (result r = false -> HAS_CUPTI = true /\ cpuOnly = false).
Proof.
  intros hc c l w. cbv zeta.
  destruct (libkineto_init_shape hc c l w)
    as (gateway & probe & status & loader & x & E & G & T).
  cbv zeta in E, T.
  exists (gateway ++ (if negb (result (libkineto_init hc c l w)) && l
                      then diagnostics status else [])), loader, x.
  split; [rewrite E at 1; cbn [trace_of snd]; now rewrite app_assoc|].
  split; [|split].
  - apply absent_app. split.
    + subst gateway. destruct (hc && negb c); [|reflexivity].
      apply (probe_phase_quiet (mkWorld (initialized w) (ext_at_probe w)) probe).
    + now destruct (negb _ && l).
  - rewrite E at 1. reflexivity.
  - intros F. destruct hc, c; try (now split);
      (rewrite T in F by reflexivity; discriminate F).
Qed.

Lemma register_and_enable_no_log (w : World X) :
  absent is_log (trace_of (register_and_enable w)).
Proof. unfold register_and_enable. exec; reflexivity. Qed.

(** The trace of every run, with the status of the diagnostics named: the
    answer of the gateway at line 121. *)
Lemma libkineto_init_trace (HAS_CUPTI cpuOnly logOnError : bool) (w : World X) :
  let res := result (libkineto_init HAS_CUPTI cpuOnly logOnError w) in
  let status := fst (getCuptiStatus (ext_at_diagnostics w)) in
  exists gateway loader,
    trace_of (libkineto_init HAS_CUPTI cpuOnly logOnError w) =
    gateway
    ++ (if negb res && logOnError then diagnostics status else [])
    ++ [Call_configLoader loader;
        Call_registerProfiler
          (mkActivityProfilerProxy (cpuOnly || negb res) loader)]
    /\ absent is_diagnostic gateway
    /\ absent is_warning gateway
    /\ absent is_log gateway.
Proof.
  cbv zeta. unfold ext_at_diagnostics.
  destruct (HAS_CUPTI && negb cpuOnly) eqn:G.
  - apply andb_prop in G. destruct G as [-> C].
    apply negb_true_iff in C. subst cpuOnly.
    destruct (register_and_enable_quiet
                (mkWorld (initialized w) (ext_at_probe w)))
      as (D & _ & _ & _ & W & _).
    pose proof (register_and_enable_no_log
                  (mkWorld (initialized w) (ext_at_probe w))) as L.
    unfold absent in D, W, L.
    destruct (result (libkineto_init true false logOnError w)) eqn:R;
      pose proof R as R'; rewrite libkineto_init_result in R';
      cbv zeta in R';
      [rewrite (libkineto_init_gpu logOnError w R') in *
      |rewrite (libkineto_init_fallback logOnError w R') in *];
      cbn [trace_of snd negb andb orb]; eexists _, _;
      (split; [unfold fallback_tail, cpu_only_registration; reflexivity|]);
      unfold absent; cbn [filter is_diagnostic is_warning is_log];
      rewrite !filter_app, D, W, L; repeat split.
  - rewrite libkineto_init_run. cbv zeta.
    assert (E : (if HAS_CUPTI then cupti_block cpuOnly logOnError
                 else ret (true, cpuOnly)) w = (true, cpuOnly, w, [])).
    { destruct HAS_CUPTI; [|reflexivity]. cbn in G.
      apply negb_false_iff in G. now subst cpuOnly. }
    rewrite E. cbn [result after trace_of fst snd negb andb orb app].
    rewrite orb_false_r. exists [], (fst (configLoader (ext w))).
    repeat split.
Qed.

(** X3.  The diagnostics of [libkineto_init] (the [CUPTI_CALL] on the
    gateway status, the warning and the remediation line) are emitted
    exactly when the call returns false and [logOnError] is true, all
    four together and once, and the status they carry is the answer of
    [getCuptiStatus] on the state the gateway is in at line 121.  In every
    other case [libkineto_init] sends nothing at all to the logger, at any
    severity. *)
Theorem diagnostics_exactly_on_logged_fallback :
  forall (HAS_CUPTI cpuOnly logOnError : bool) (w : World X),
    let r := libkineto_init HAS_CUPTI cpuOnly logOnError w in
    let status := fst (getCuptiStatus (ext_at_diagnostics w)) in
    filter is_diagnostic (trace_of r) =
      (if negb (result r) && logOnError then diagnostics status else [])
    /\ count is_warning (trace_of r) =
       (if negb (result r) && logOnError then 1 else 0)
    /\ filter is_log (trace_of r) =
       (if negb (result r) && logOnError then logged_lines status else []).
Proof.
  intros hc c l w. cbv zeta.
  destruct (libkineto_init_trace hc c l w)
    as (gateway & loader & E & D & W & L).
  cbv zeta in E. unfold absent in D, W, L.
  rewrite E. unfold count.
  rewrite !filter_app, D, W, L.
  destruct (negb (result (libkineto_init hc c l w)) && l); repeat split.
Qed.

(** X4.  The [registerCallback] and [enableCallback] calls of any
    [libkineto_init] are an initial part of one fixed plan (context-created
    with [initProfilers], context-destroyed with [stopProfiler], then the
    two enablements, all in the resource domain) and every call of it but
    the last answered true: no handler is registered for the other event,
    and nothing is enabled unless both registrations succeeded. *)
Theorem registration_follows_plan :
  forall (HAS_CUPTI cpuOnly logOnError : bool) (w : World X),
    exists answers,
      filter is_register_or_enable
        (trace_of (libkineto_init HAS_CUPTI cpuOnly logOnError w)) =
        attempts registration_plan answers
      /\ stops_at_first_failure answers = true
      /\ (HAS_CUPTI && negb cpuOnly = false -> answers = []).
Proof.
  intros hc c l w.
  destruct (libkineto_init_shape hc c l w)
    as (gateway & probe & status & loader & x & E & G & T).
  cbv zeta in E. rewrite E. cbn [trace_of snd].
  assert (R : filter is_register_or_enable
                (gateway
                 ++ (if negb (result (libkineto_init hc c l w)) && l
                     then diagnostics status else [])
                 ++ [Call_configLoader loader;
                     Call_registerProfiler
                       (mkActivityProfilerProxy
                          (c || negb (result (libkineto_init hc c l w)))
                          loader)])
              = filter is_register_or_enable gateway).
  { rewrite !filter_app.
    destruct (negb _ && l); cbn; now rewrite app_nil_r. }
  rewrite R. subst gateway. destruct (hc && negb c).
  - destruct (register_and_enable_attempts
                (mkWorld (initialized w) (ext_at_probe w)))
      as (answers & A & S).
    exists answers. cbn [filter is_register_or_enable].
    rewrite filter_app. cbn [filter is_register_or_enable].
    rewrite app_nil_r. split; [exact A | split; [exact S | discriminate]].
  - exists []. now repeat split.
Qed.

(** X6.  [libkineto_init] only talks to the gateway, the loader and the
    registry: it executes gateway calls, its diagnostics, [configLoader]
    and [registerProfiler], and nothing else.  In particular it never
    activates the profiler, never starts or stops event collection, and
    leaves [initialized] as it found it.  Its trace accounts for the
    external state: replayed on the state before the call it gives the
    state after, so no collaborator is called without being recorded. *)
Theorem init_leaves_activation_alone :
  forall (HAS_CUPTI cpuOnly logOnError : bool) (w : World X),
    let r := libkineto_init HAS_CUPTI cpuOnly logOnError w in
    forallb is_init_statement (trace_of r) = true
    /\ absent is_activation (trace_of r)
    /\ absent is_start (trace_of r)
    /\ absent is_stop (trace_of r)
    /\ initialized (after r) = initialized w
    /\ replay_all (trace_of r) (ext w) = Some (ext (after r)).
Proof.
  intros hc c l w. cbv zeta.
  destruct (libkineto_init_shape hc c l w)
    as (gateway & probe & status & loader & x & E & G & T).
  cbv zeta in E.
  assert (S : forallb is_init_statement
                (trace_of (libkineto_init hc c l w)) = true).
  { rewrite E at 1. cbn [trace_of snd]. rewrite !forallb_app.
    subst gateway.
    destruct (hc && negb c); cbn [forallb is_init_statement];
      rewrite ?forallb_app, ?register_and_enable_statements;
      now destruct (negb _ && l). }
  assert (N : forall p : Call -> bool,
             (forall k, is_init_statement k = true -> p k = false) ->
             absent p (trace_of (libkineto_init hc c l w))).
  { intros p P. unfold absent.
    induction (trace_of (libkineto_init hc c l w)) as [|k t IH];
      [reflexivity|].
    cbn [forallb] in S. apply andb_prop in S. destruct S as [Sk St].
    cbn [filter]. now rewrite (P k Sk), IH. }
  split; [exact S|]. split; [|split; [|split; [|split]]].
  - apply N. now intros [[]| | | | | | | | | | | | | | | |].
  - apply N. now intros [[]| | | | | | | | | | | | | | | |].
  - apply N. now intros [[]| | | | | | | | | | | | | | | |].
  - rewrite E at 1. reflexivity.
  - apply libkineto_init_faithful.
Qed.

End InitPaths.

(** ** Repeated initialisation and the injection entry point *)

Section InitComposition.

Context {X : Type} `{HX : Collaborators X}.

Lemma libkineto_init_registers (HAS_CUPTI cpuOnly logOnError : bool)
    (w : World X) :
  let r := libkineto_init HAS_CUPTI cpuOnly logOnError w in
  map proxy_cpuOnly (registered_profilers (trace_of r)) =
    [cpuOnly || negb (result r)]
  /\ count is_warning (trace_of r) =
     (if negb (result r) && logOnError then 1 else 0)
  /\ initialized (after r) = initialized w.
Proof.
  cbv zeta.
  destruct (libkineto_init_shape HAS_CUPTI cpuOnly logOnError w)
    as (gateway & probe & status & loader & x & E & G & T).
  cbv zeta in E.
  assert (Q : registered_profilers gateway = []
              /\ filter is_warning gateway = []).
  { subst gateway. destruct (HAS_CUPTI && negb cpuOnly); [|now split].
    destruct (register_and_enable_quiet
                (mkWorld (initialized w) (ext_at_probe w)))
      as (_ & _ & _ & _ & W & R).
    unfold absent in W. cbn [registered_profilers filter is_warning].
    rewrite registered_profilers_app, filter_app, R, W. now split. }
  destruct Q as [R W].
  rewrite E at 1 3 5. cbn [trace_of after fst snd initialized]. unfold count.
  rewrite !registered_profilers_app, !filter_app, R, W.
  destruct (negb (result (libkineto_init HAS_CUPTI cpuOnly logOnError w))
            && logOnError); repeat split.
Qed.

Lemma init_each_cons (HAS_CUPTI cpuOnly logOnError : bool)
    (rest : list (bool * bool)) (w : World X) :
  let r := libkineto_init HAS_CUPTI cpuOnly logOnError w in
  let rs := init_each HAS_CUPTI rest (after r) in
  init_each HAS_CUPTI ((cpuOnly, logOnError) :: rest) w =
  (result r :: result rs, after rs, trace_of r ++ trace_of rs).
Proof.
  cbv zeta. cbn [init_each]. unfold bind, ret, result, after, trace_of.
  destruct (libkineto_init HAS_CUPTI cpuOnly logOnError w) as [[b w1] t1].
  cbn [fst snd].
  destruct (init_each HAS_CUPTI rest w1) as [[bs w2] t2].
  cbn. now rewrite app_nil_r.
Qed.

Lemma init_each_registers (HAS_CUPTI : bool) (args : list (bool * bool)) :
  forall w : World X,
    let r := init_each HAS_CUPTI args w in
    List.length (result r) = List.length args
    /\ map proxy_cpuOnly (registered_profilers (trace_of r)) =
       map (fun a => fst (fst a) || negb (snd a)) (combine args (result r))
    /\ initialized (after r) = initialized w.
Proof.
  revert HAS_CUPTI args.
  intros hc args. induction args as [|[c l] rest IH]; intros w; cbv zeta.
  - repeat split.
  - rewrite init_each_cons. cbv zeta.
    destruct (libkineto_init_registers hc c l w) as (P & _ & I).
    destruct (IH (after (libkineto_init hc c l w))) as (L & M & I').
    cbv zeta in *. cbn [result after trace_of fst snd].
    split; [cbn [List.length]; now rewrite L|].
    split; [|now rewrite I', I].
    rewrite registered_profilers_app, map_app, P, M. reflexivity.
Qed.

(** X5.  [libkineto_init] has no guard against being called again: called
    once per element of a list of arguments, it returns one result per call
    and registers one profiler per call, each CPU-only exactly when its call
    asked for it or returned false; the flag [initialized] is the same
    after all the calls.  The trace accounts for the external state:
    replayed on the state before the calls it gives the state after them, so
    every recorded [registerProfiler] has reached the registry. *)
Theorem every_call_registers :
  forall (HAS_CUPTI : bool) (args : list (bool * bool)) (w : World X),
    let r := init_each HAS_CUPTI args w in
    List.length (result r) = List.length args
    /\ map proxy_cpuOnly (registered_profilers (trace_of r)) =
       map (fun a => fst (fst a) || negb (snd a)) (combine args (result r))
    /\ initialized (after r) = initialized w
    /\ replay_all (trace_of r) (ext w) = Some (ext (after r)).
Proof.
  intros hc args w. cbv zeta.
  destruct (init_each_registers hc args w) as (L & M & I).
  split; [exact L|]. split; [exact M|]. split; [exact I|].
  apply init_each_faithful.
Qed.

(** X7.  What the return code of [InitializeInjection] hides: the entry
    point registers exactly one profiler, CPU-only exactly when its
    [libkineto_init(false, true)] returned false, and logs the warning
    exactly in that case; it returns 1 either way.  The state it leaves is
    the one its [libkineto_init] leaves, and its trace accounts for it. *)
Theorem injection_outcome :
  forall (HAS_CUPTI : bool) (w : World X),
    let ok := result (libkineto_init HAS_CUPTI false true w) in
    let r := InitializeInjection HAS_CUPTI w in
    result r = 1%Z
    /\ map proxy_cpuOnly (registered_profilers (trace_of r)) = [negb ok]
    /\ count is_warning (trace_of r) = (if ok then 0 else 1)
    /\ (HAS_CUPTI = false -> ok = true)
    /\ after r = after (libkineto_init HAS_CUPTI false true w)
    /\ replay_all (trace_of r) (ext w) = Some (ext (after r)).
Proof.
  intros hc w. cbv zeta.
  pose proof (InitializeInjection_faithful hc w) as Faith.
  rewrite InitializeInjection_run in *.
  destruct (libkineto_init_registers hc false true w) as (P & W & _).
  cbv zeta in P, W. cbn [result trace_of fst snd registered_profilers].
  split; [reflexivity|]. split; [exact P|]. split; [|split; [|split]].
  - unfold count in *. cbn [filter is_warning]. rewrite W.
    now destruct (result (libkineto_init hc false true w)).
  - intros ->. rewrite libkineto_init_run. reflexivity.
  - reflexivity.
  - exact Faith.
Qed.

End InitComposition.

(** ** Starts and stops of a run *)

Section StartsAndStops.

Context {X : Type} `{HX : Collaborators X}.

Lemma stops_of_app (s t : Trace) : stops_of (s ++ t) = stops_of s ++ stops_of t.
Proof.
  induction s as [|c s IH]; [reflexivity|]. destruct c; cbn; now rewrite ?IH.
Qed.

Lemma starts_of_app (s t : Trace) :
  starts_of (s ++ t) = starts_of s ++ starts_of t.
Proof.
  induction s as [|c s IH]; [reflexivity|]. destruct c; cbn; now rewrite ?IH.
Qed.

(** Starts, stops and toggle reads of one context-created callback. *)
Lemma initProfilers_starts d c (cbInfo : CUpti_ResourceData) (w : World X) :
  let t := trace_of (initProfilers d c cbInfo w) in
  stops_of t = []
  /\ List.length (starts_of t) + count is_toggle_set t = 1
  /\ (absent is_toggle_set t -> starts_of t = [context cbInfo]).
Proof.
  cbv zeta. rewrite initProfilers_run. unfold activation_trace, absent.
  destruct (getenv _ (ext_at_getenv w)) as [v|], (initialized w);
    cbn; repeat split; discriminate.
Qed.

Lemma run_requests (evs : list (HostEvent X)) :
  forall w : World X,
    let t := trace_of (run evs w) in
    stops_of t = destroyed_contexts evs
    /\ List.length (starts_of t) + count is_toggle_set t = created_count evs
    /\ (absent is_toggle_set t -> starts_of t = created_contexts evs).
Proof.
  revert evs.
  intros evs. induction evs as [|ev evs IH]; intros w; cbv zeta.
  - repeat split.
  - rewrite run_cons. cbn [trace_of snd].
    destruct (IH (after (host_step ev w))) as (S & N & T). cbv zeta in S, N, T.
    rewrite stops_of_app, starts_of_app, count_app, length_app, absent_app.
    rewrite created_count_cons, S.
    destruct ev as [d c i|d c i|f];
      cbn [host_step invoke is_created] in S, N, T |- *.
    + destruct (initProfilers_starts d c i w) as (S1 & N1 & T1).
      cbv zeta in S1, N1, T1. rewrite S1.
      split; [reflexivity|]. split; [lia|].
      intros [A1 A2]. rewrite (T1 A1), (T A2). reflexivity.
    + rewrite stopProfiler_run. cbn.
      split; [reflexivity|]. split; [exact N|]. intros [_ A]. exact (T A).
    + cbn. split; [reflexivity|]. split; [exact N|]. intros [_ A]. exact (T A).
Qed.

(** X8.  In every run of the host, the stop requests are the contexts of
    the context-destroyed callbacks, one each and in the order of the
    callbacks.  Every context-created callback either issues one start or
    reads the toggle as set; and when no callback of the run read the toggle
    as set, the start requests are the contexts of the context-created
    callbacks, one each and in order.  The requests reach the collaborator:
    the external state after the run is the state before it, taken through
    the stop of each context-destroyed callback and the event collection
    part of each context-created callback, in order (with the activation
    before the first of those that finds the flag clear). *)
Theorem run_starts_and_stops :
  forall (evs : list (HostEvent X)) (w : World X),
    let t := trace_of (run evs w) in
    stops_of t = destroyed_contexts evs
    /\ List.length (starts_of t) + count is_toggle_set t = created_count evs
    /\ (absent is_toggle_set t -> starts_of t = created_contexts evs)
    /\ ext (after (run evs w)) = host_effects evs (initialized w) (ext w).
Proof.
  intros evs w. cbv zeta.
  destruct (run_requests evs w) as (S & N & T).
  split; [exact S|]. split; [exact N|]. split; [exact T|].
  apply run_ext.
Qed.

End StartsAndStops.

(** ** Interleavings: the mutex, termination, starts and stops *)

Section Interleavings.

Context {X : Type} `{HX : Collaborators X}.

Lemma pool_steps_invariant (I : Pool * Shared X -> Prop) :
  (forall c c', I c -> pool_step c c' -> I c') ->
  forall c c', pool_steps c c' -> I c -> I c'.
Proof.
  intros P c c' S. induction S as [c|c1 c2 c3 S1 _ IH]; [trivial|].
  intros H. apply IH. exact (P c1 c2 H S1).
Qed.

Lemma pool_steps_trans (c1 c2 c3 : Pool * Shared X) :
  pool_steps c1 c2 -> pool_steps c2 c3 -> pool_steps c1 c3.
Proof.
  induction 1 as [c|a b c S _ IH]; [trivial|].
  intros T. exact (pool_steps_step a b c3 S (IH T)).
Qed.

Lemma mutex_after_app (held : bool) (s t : Trace) :
  mutex_after held (s ++ t) =
  match mutex_after held s with
  | Some m => mutex_after m t
  | None => None
  end.
Proof.
  revert held. induction s as [|c s IH]; intros held; [reflexivity|].
  destruct c; cbn [app mutex_after]; try apply IH; destruct held;
    try reflexivity; apply IH.
Qed.

(** One statement keeps the history's account of the mutex. *)
Lemma mutex_account_step (c c' : Pool * Shared X) :
  consistent c ->
  mutex_after false (history (snd c)) = Some (initMutex (snd c)) ->
  pool_step c c' ->
  mutex_after false (history (snd c')) = Some (initMutex (snd c')).
Proof.
  intros (H & _ & _) A S. destruct S as [before t after_t s t' s' T].
  cbn [fst snd] in *. rewrite holders_app, holders_cons in H.
  destruct s as [[init x] m h]. destruct t as [p i].
  unfold thread_step in T.
  cbn [pc cbInfo_of world initMutex history initialized ext] in *.
  destruct p; cbn [holds_lock] in H;
    try discriminate T;
    try (destruct m; [discriminate T|]);
    try (destruct init; cbn [negb] in T);
    try (destruct (getenv _ x));
    try (destruct (configLoader x) as [loader x']);
    injection T as <- <-;
    cbn [world initMutex history initialized ext outside logged];
    rewrite ?mutex_after_app, ?A; try reflexivity;
    destruct m; try reflexivity; lia.
Qed.

(** X9.  Mutual exclusion, whatever the interleaving: at most one handler
    is inside a guarded scope, [initMutex] is held exactly when one is, and
    in the history of all threads locks and unlocks alternate, starting
    with a lock. *)
Theorem handlers_exclude_each_other :
  forall (evs : list (HostEvent X)) (x : X) (p : Pool) (s : Shared X),
    pool_steps (spawn_all evs, at_attach x) (p, s) ->
    holders p <= 1
    /\ (holders p = 1 <-> initMutex s = true)
    /\ mutex_after false (history s) = Some (initMutex s).
Proof.
  intros evs x p s S.
  assert (I : consistent (p, s)
              /\ mutex_after false (history s) = Some (initMutex s)).
  { refine (pool_steps_invariant
              (fun c => consistent c
                        /\ mutex_after false (history (snd c))
                           = Some (initMutex (snd c)))
              _ _ _ S _).
    - intros c c' [C A] T. split.
      + exact (consistent_step c c' C T).
      + exact (mutex_account_step c c' C A T).
    - split; [apply consistent_attach | reflexivity]. }
  destruct I as [(H & _ & _) A]. cbn [fst snd] in H.
  split; [|split; [|exact A]].
  - rewrite H. destruct (initMutex s); lia.
  - rewrite H. destruct (initMutex s); split; intros E;
      reflexivity || discriminate E.
Qed.

Lemma work_left_spawn_all (evs : list (HostEvent X)) :
  work_left (spawn_all evs) = 12 * created_count evs + 4 * destroyed_count evs.
Proof.
  unfold work_left, created_count, destroyed_count, destroyed_contexts.
  induction evs as [|ev evs IH]; [reflexivity|].
  rewrite spawn_all_cons, map_app, list_sum_app, IH.
  destruct ev;
    cbn [spawn map list_sum filter is_created flat_map app List.length
         statements_left pc];
    unfold list_sum at 1; cbn [fold_right]; lia.
Qed.

Lemma pool_steps_n_work (n : nat) (c c' : Pool * Shared X) :
  pool_steps_n n c c' -> n + work_left (fst c') <= work_left (fst c).
Proof.
  induction 1 as [c|n c1 c2 c3 S _ IH]; [apply le_n|].
  pose proof (pool_step_decreases c1 c2 S). lia.
Qed.

Lemma pool_steps_counted (c c' : Pool * Shared X) :
  pool_steps c c' <-> exists n, pool_steps_n n c c'.
Proof.
  split.
  - induction 1 as [c|c1 c2 c3 T _ [n IH]].
    + exists 0. constructor.
    + exists (S n). econstructor; eassumption.
  - intros [n N]. induction N as [c|n c1 c2 c3 S _ IH]; [constructor|].
    econstructor; eassumption.
Qed.

Lemma pool_steps_n_trans (n m : nat) (c1 c2 c3 : Pool * Shared X) :
  pool_steps_n n c1 c2 -> pool_steps_n m c2 c3 -> pool_steps_n (n + m) c1 c3.
Proof.
  induction 1 as [c|n a b c S _ IH]; [trivial|].
  intros T. exact (pool_steps_n_step (n + m) a b c3 S (IH T)).
Qed.

(** A schedule executes as many statements as it has turns that are not
    lost. *)
Lemma schedule_steps_n (turns : list nat) (c : Pool * Shared X) :
  pool_steps_n (steps_taken turns c) c (schedule turns c).
Proof.
  revert c. induction turns as [|i rest IH]; intros [p s];
    [apply pool_steps_n_refl|].
  cbn [schedule steps_taken fst snd].
  destruct (nth_error p i) as [t|] eqn:N; [|apply IH].
  destruct (thread_step t s) as [[t' s']|] eqn:T; [|apply IH].
  apply pool_steps_n_step with (c2 := (firstn i p ++ t' :: skipn (S i) p, s'));
    [|apply IH].
  destruct (nth_error_split p i N) as (b & r & E & L).
  subst p i. rewrite firstn_app, firstn_all, Nat.sub_diag, app_nil_r.
  replace (skipn (S (List.length b)) (b ++ t :: r)) with r.
  - now constructor.
  - rewrite skipn_app, skipn_all2 by apply Nat.le_succ_diag_r.
    replace (S (List.length b) - List.length b) with 1 by lia.
    reflexivity.
Qed.

(** X10.  Every handler returns, whatever the scheduler does.  From
    attach, the threads of a set of callbacks execute at most twelve
    statements for each context-created callback and four for each
    context-destroyed callback, all together; as long as a thread has
    not returned, some thread can execute its next statement (a thread
    waiting for [initMutex] never waits for a thread that waits); and from
    where the threads are, also with threads waiting for the mutex, they
    can all be run to their return within the same bound. *)
Theorem handlers_always_return :
  forall (evs : list (HostEvent X)) (x : X) (p : Pool) (s : Shared X)
         (n : nat),
    pool_steps_n n (spawn_all evs, at_attach x) (p, s) ->
    n <= 12 * created_count evs + 4 * destroyed_count evs
    /\ (all_returned p = false -> exists c', pool_step (p, s) c')
    /\ (exists n' p' s',
          pool_steps_n n' (p, s) (p', s')
          /\ all_returned p' = true
          /\ n + n' <= 12 * created_count evs + 4 * destroyed_count evs).
Proof.
  intros evs x p s n N.
  assert (I : consistent (p, s)).
  { refine (consistent_steps _ _ _ (consistent_attach evs x)).
    apply pool_steps_counted. now exists n. }
  split; [|split].
  - pose proof (pool_steps_n_work n _ _ N) as W.
    cbn [fst] in W. rewrite work_left_spawn_all in W. lia.
  - now apply pool_progress.
  - destruct (pool_completes (p, s) I) as ([p' s'] & S' & R').
    apply pool_steps_counted in S'. destruct S' as [n' N'].
    exists n', p', s'. split; [exact N'|]. split; [exact R'|].
    pose proof (pool_steps_n_work _ _ _ (pool_steps_n_trans _ _ _ _ _ N N'))
      as W.
    cbn [fst] in W. rewrite work_left_spawn_all in W. lia.
Qed.

(** A thread running alone inside a pool. *)
Lemma solo_steps (fuel : nat) (before : Pool) (t : Thread) (after_t : Pool)
    (s : Shared X) :
  pool_steps (before ++ t :: after_t, s)
    (before ++ fst (solo fuel t s) :: after_t, snd (solo fuel t s)).
Proof.
  revert t s. induction fuel as [|fuel IH]; intros t s;
    [apply pool_steps_refl|].
  cbn [solo]. destruct (thread_step t s) as [[t' s']|] eqn:T;
    [|apply pool_steps_refl].
  apply pool_steps_step with (c2 := (before ++ t' :: after_t, s'));
    [now constructor | apply IH].
Qed.

Lemma run_is_an_interleaving_from (evs : list (HostEvent X)) :
  forallb is_callback evs = true ->
  forall (done : Pool) (w : World X) (h : Trace),
    pool_steps (done ++ spawn_all evs, mkShared w false h)
      (done ++ returned_threads evs,
       mkShared (after (run evs w)) false (h ++ trace_of (run evs w))).
Proof.
  induction evs as [|ev evs IH]; intros C done w h.
  - cbn. rewrite !app_nil_r. apply pool_steps_refl.
  - cbn [forallb] in C. apply andb_prop in C. destruct C as [Cev C].
    rewrite run_cons. cbn [after trace_of fst snd].
    rewrite app_assoc.
    destruct ev as [d c i|d c i|f]; [| |discriminate Cev];
      cbn [spawn_all flat_map spawn returned_threads app host_step invoke].
    + eapply pool_steps_trans; [apply (solo_steps 12)|].
      rewrite (solo_initProfilers d c i). cbn [fst snd].
      pose proof (IH C (done ++ [mkThread Created_returned i])
                    (after (initProfilers d c i w))
                    (h ++ trace_of (initProfilers d c i w))) as P.
      rewrite <- !(app_assoc done) in P. exact P.
    + eapply pool_steps_trans; [apply (solo_steps 4)|].
      rewrite (solo_stopProfiler d c i). cbn [fst snd].
      pose proof (IH C (done ++ [mkThread Destroyed_returned i])
                    (after (stopProfiler d c i w))
                    (h ++ trace_of (stopProfiler d c i w))) as P.
      rewrite <- !(app_assoc done) in P. exact P.
Qed.

(** X11.  Running the callbacks one after another, as [run] does, is one
    of the interleavings of their threads: the threads started on a free
    mutex can be scheduled so that they all return and leave the world and
    the history that [run] computes. *)
Theorem run_is_an_interleaving :
  forall (evs : list (HostEvent X)) (w : World X) (h : Trace),
    forallb is_callback evs = true ->
    pool_steps (spawn_all evs, mkShared w false h)
      (returned_threads evs,
       mkShared (after (run evs w)) false (h ++ trace_of (run evs w)))
    /\ all_returned (returned_threads evs) = true.
Proof.
  intros evs w h C. split.
  - exact (run_is_an_interleaving_from evs C [] w h).
  - clear C. induction evs as [|[d c i|d c i|f] evs IH]; cbn; auto.
Qed.


(** What one statement adds to the history, against what its thread still
    has to do. *)
Lemma thread_step_history (t t' : Thread) (s s' : Shared X) :
  thread_step t s = Some (t', s') ->
  exists delta,
    history s' = history s ++ delta
    /\ stops_of delta ++ stop_pending t' = stop_pending t
    /\ (absent is_toggle_set delta ->
        starts_of delta ++ start_pending t' = start_pending t).
Proof.
  destruct t as [p i]. unfold thread_step, stop_pending, start_pending.
  cbn [pc cbInfo_of].
  destruct p; cbn; try discriminate;
    try (destruct (initMutex s); [discriminate|]);
    try (destruct (negb (initialized (world s))));
    try (destruct (getenv _ (ext (world s))));
    try (destruct (configLoader (ext (world s))));
    intros T; injection T as <- <-; cbn;
    try (eexists [_]; split; [reflexivity|];
         split; [reflexivity|]; intros A; reflexivity || discriminate A);
    exists []; rewrite app_nil_r; repeat split.
Qed.

Lemma spawn_all_pending (evs : list (HostEvent X)) :
  flat_map stop_pending (spawn_all evs) = destroyed_contexts evs
  /\ flat_map start_pending (spawn_all evs) = created_contexts evs.
Proof.
  unfold destroyed_contexts, created_contexts.
  induction evs as [|ev evs [IH1 IH2]]; [now split|].
  rewrite spawn_all_cons, !flat_map_app, IH1, IH2.
  destruct ev; split; reflexivity.
Qed.

Lemma all_returned_nothing_pending (p : Pool) :
  all_returned p = true ->
  flat_map stop_pending p = [] /\ flat_map start_pending p = [].
Proof.
  induction p as [|t p IH]; [now split|].
  unfold all_returned. cbn [forallb flat_map]. intros R.
  apply andb_prop in R. destruct R as [Rt R]. destruct (IH R) as [-> ->].
  destruct t as [[] i]; try discriminate Rt; now split.
Qed.

Lemma insert_commutes {A : Type} (d b t r : list A) :
  Permutation (d ++ b ++ t ++ r) (b ++ (d ++ t) ++ r).
Proof.
  rewrite !app_assoc. do 2 apply Permutation_app_tail.
  apply Permutation_app_comm.
Qed.

(** X12.  Whatever the interleaving, the stop requests issued so far
    together with those of the handlers still to issue theirs are the
    contexts of the context-destroyed callbacks, each once; so once all
    handlers have returned, every context-destroyed callback has had
    exactly one stop request for its own context.  The requests reach the
    collaborator: the history replayed on the state at attach gives the
    state the threads have reached. *)
Theorem interleaved_stops :
  forall (evs : list (HostEvent X)) (x : X) (p : Pool) (s : Shared X),
    pool_steps (spawn_all evs, at_attach x) (p, s) ->
    Permutation (stops_of (history s) ++ flat_map stop_pending p)
      (destroyed_contexts evs)
    /\ (all_returned p = true ->
        Permutation (stops_of (history s)) (destroyed_contexts evs))
    /\ replay_all (history s) x = Some (ext (world s)).
Proof.
  intros evs x p s S.
  assert (I : Permutation (stops_of (history s) ++ flat_map stop_pending p)
                (destroyed_contexts evs)).
  { refine (pool_steps_invariant
              (fun c => Permutation
                          (stops_of (history (snd c))
                           ++ flat_map stop_pending (fst c))
                          (destroyed_contexts evs))
              _ _ _ S _).
    - intros c c' P T. destruct T as [before t after_t s0 t' s0' T].
      cbn [fst snd] in *.
      destruct (thread_step_history t t' s0 s0' T) as (delta & H & St & _).
      rewrite H, stops_of_app, !flat_map_app in *. cbn [flat_map] in *.
      rewrite <- St in P. rewrite <- app_assoc.
      etransitivity; [|exact P].
      apply Permutation_app_head. apply insert_commutes.
    - cbn [fst snd at_attach history stops_of app].
      now rewrite (proj1 (spawn_all_pending evs)). }
  split; [exact I|]. split; [|exact (pool_steps_replay x _ _ S eq_refl)].
  intros R. destruct (all_returned_nothing_pending p R) as [E _].
  now rewrite E, app_nil_r in I.
Qed.

(** X13.  Whatever the interleaving, as long as no handler has read the
    toggle as set, the start requests issued so far together with those of
    the handlers still to issue theirs are the contexts of the
    context-created callbacks, each once; so once all handlers have
    returned, every context-created callback has had exactly one start
    request for its own context.  The requests reach the collaborator: the
    history replayed on the state at attach gives the state the threads
    have reached. *)
Theorem interleaved_starts :
  forall (evs : list (HostEvent X)) (x : X) (p : Pool) (s : Shared X),
    pool_steps (spawn_all evs, at_attach x) (p, s) ->
    absent is_toggle_set (history s) ->
    Permutation (starts_of (history s) ++ flat_map start_pending p)
      (created_contexts evs)
    /\ (all_returned p = true ->
        Permutation (starts_of (history s)) (created_contexts evs))
    /\ replay_all (history s) x = Some (ext (world s)).
Proof.
  intros evs x p s S A.
  assert (I : Permutation (starts_of (history s) ++ flat_map start_pending p)
                (created_contexts evs)).
  { revert A.
    refine (pool_steps_invariant
              (fun c => absent is_toggle_set (history (snd c)) ->
                        Permutation
                          (starts_of (history (snd c))
                           ++ flat_map start_pending (fst c))
                          (created_contexts evs))
              _ _ _ S _).
    - intros c c' P T A. destruct T as [before t after_t s0 t' s0' T].
      cbn [fst snd] in *.
      destruct (thread_step_history t t' s0 s0' T) as (delta & H & _ & St).
      rewrite H in A |- *. apply absent_app in A. destruct A as [A0 Ad].
      specialize (P A0). specialize (St Ad).
      rewrite starts_of_app, !flat_map_app in *. cbn [flat_map] in *.
      rewrite <- St in P. rewrite <- app_assoc.
      etransitivity; [|exact P].
      apply Permutation_app_head. apply insert_commutes.
    - intros _. cbn [fst snd at_attach history starts_of app].
      now rewrite (proj2 (spawn_all_pending evs)). }
  split; [exact I|]. split; [|exact (pool_steps_replay x _ _ S eq_refl)].
  intros R. destruct (all_returned_nothing_pending p R) as [_ E].
  now rewrite E, app_nil_r in I.
Qed.

End Interleavings.

(** ** The further properties on the concrete process *)

(** The destroyed handlers ran first, B before A: the stops are issued in
    that order, the starts in the order of creation. *)
Example fake_destroyed_first :
  stops_of (history (snd Schedules.after_destroyed_first)) = [200%Z; 100%Z]
  /\ starts_of (history (snd Schedules.after_destroyed_first))
     = [100%Z; 200%Z]
  /\ all_returned (fst Schedules.after_destroyed_first) = true
  /\ count is_activation (history (snd Schedules.after_destroyed_first)) = 1.
Proof. repeat split. Qed.

(** While A is between the call and the assignment, the flag is still
    clear and the mutex is held. *)
Example fake_a_inside :
  map pc (fst Schedules.a_inside) = [Created_set; Created_lock]
  /\ initialized (world (snd Schedules.a_inside)) = false
  /\ initMutex (snd Schedules.a_inside) = true
  /\ count is_activation (history (snd Schedules.a_inside)) = 1.
Proof. repeat split. Qed.

(** Three calls in a row on a process without GPU. *)
Example fake_init_three_times :
  result (init_each true [(false, true); (true, false); (false, false)]
            (Fake.fresh Fake.no_gpu)) = [false; true; false]
  /\ registered_profilers
       (trace_of (init_each true
                    [(false, true); (true, false); (false, false)]
                    (Fake.fresh Fake.no_gpu)))
     = [mkActivityProfilerProxy true 4096%Z;
        mkActivityProfilerProxy true 4096%Z;
        mkActivityProfilerProxy true 4096%Z].
Proof. split; reflexivity. Qed.

Lemma gpu_path_established_witness :
  result (libkineto_init true false true (Fake.fresh Fake.gpu)) = true.
Proof.
  apply (proj2 (gpu_path_established true (Fake.fresh Fake.gpu)) Fake.gpu).
  eapply gateway_all_true; reflexivity.
Defined.

Lemma run_starts_and_stops_witness :
  starts_of (trace_of (run Fake.two_contexts (Fake.fresh Fake.gpu)))
  = [100%Z; 200%Z].
Proof.
  apply (proj1 (proj2 (proj2 (run_starts_and_stops Fake.two_contexts
                                (Fake.fresh Fake.gpu))))).
  reflexivity.
Defined.

Lemma handlers_exclude_each_other_witness :
  holders (fst Schedules.a_inside) <= 1
  /\ mutex_after false (history (snd Schedules.a_inside))
     = Some (initMutex (snd Schedules.a_inside)).
Proof.
  assert (S : pool_steps (spawn_all Fake.two_created, at_attach Fake.gpu)
                (fst Schedules.a_inside, snd Schedules.a_inside)).
  { rewrite <- surjective_pairing. apply schedule_steps. }
  destruct (handlers_exclude_each_other _ _ _ _ S) as (H & _ & A).
  split; assumption.
Defined.

(** B asks for the mutex while A holds it: the turn is lost, B waits. *)
Example fake_b_waits :
  thread_step (mkThread Created_lock Fake.ctxB) (snd Schedules.a_inside) = None
  /\ schedule Schedules.contended_turns
       (spawn_all Fake.two_created, at_attach Fake.gpu) = Schedules.a_inside
  /\ steps_taken Schedules.contended_turns
       (spawn_all Fake.two_created, at_attach Fake.gpu) = 5
  /\ all_returned (fst Schedules.a_inside) = false.
Proof. repeat split. Qed.

Lemma handlers_always_return_witness :
  steps_taken Schedules.contended_turns
    (spawn_all Fake.two_created, at_attach Fake.gpu)
  <= 12 * created_count Fake.two_created
     + 4 * destroyed_count Fake.two_created
  /\ (exists c',
         pool_step
           (schedule Schedules.contended_turns
              (spawn_all Fake.two_created, at_attach Fake.gpu)) c')
  /\ (exists n' p' s',
         pool_steps_n n'
           (schedule Schedules.contended_turns
              (spawn_all Fake.two_created, at_attach Fake.gpu)) (p', s')
         /\ all_returned p' = true
         /\ steps_taken Schedules.contended_turns
              (spawn_all Fake.two_created, at_attach Fake.gpu) + n'
            <= 12 * created_count Fake.two_created
               + 4 * destroyed_count Fake.two_created).
Proof.
  pose proof (schedule_steps_n Schedules.contended_turns
                (spawn_all Fake.two_created, at_attach Fake.gpu)) as N.
  destruct (schedule Schedules.contended_turns
              (spawn_all Fake.two_created, at_attach Fake.gpu))
    as [p s] eqn:E.
  destruct (handlers_always_return Fake.two_created Fake.gpu p s _ N)
    as (B & P & C).
  split; [exact B|]. split; [|exact C].
  apply P. vm_compute in E. injection E as <- _. reflexivity.
Defined.

Lemma run_is_an_interleaving_witness :
  pool_steps (spawn_all Fake.two_contexts, mkShared (Fake.fresh Fake.gpu) false [])
    (returned_threads Fake.two_contexts,
     mkShared (after (run Fake.two_contexts (Fake.fresh Fake.gpu))) false
       ([] ++ trace_of (run Fake.two_contexts (Fake.fresh Fake.gpu)))).
Proof.
  apply (run_is_an_interleaving Fake.two_contexts (Fake.fresh Fake.gpu) []).
  reflexivity.
Defined.

Lemma interleaved_stops_witness :
  Permutation (stops_of (history (snd Schedules.after_destroyed_first)))
    (destroyed_contexts Fake.two_contexts).
Proof.
  assert (S : pool_steps (spawn_all Fake.two_contexts, at_attach Fake.gpu)
                (fst Schedules.after_destroyed_first,
                 snd Schedules.after_destroyed_first)).
  { rewrite <- surjective_pairing. apply schedule_steps. }
  apply (proj1 (proj2 (interleaved_stops _ _ _ _ S))). reflexivity.
Defined.

Lemma interleaved_starts_witness :
  Permutation (starts_of (history (snd Schedules.after_b_waits_for_a)))
    (created_contexts Fake.two_created).
Proof.
  assert (S : pool_steps (spawn_all Fake.two_created, at_attach Fake.gpu)
                (fst Schedules.after_b_waits_for_a,
                 snd Schedules.after_b_waits_for_a)).
  { rewrite <- surjective_pairing. apply schedule_steps. }
  apply (proj1 (proj2 (interleaved_starts _ _ _ _ S eq_refl))). reflexivity.
Defined.
